(** * Study-portal orchestrator: routing and multi-turn parameter collection

    A shallow embedding of the router ([root_agent.py]), the four handler
    nodes ([agents/*.py]), the turn entry point ([orchestrator.py]) and the
    socket handler ([websocket_server.py]), followed by the properties of
    the routing and parameter-collection state machine.

    Conventions of the embedding.
    - A Python [str] is a Rocq [string]; a character of an utterance is one
      8-bit code point (Latin-1).  Fixed texts that hold characters outside
      that range are kept as their UTF-8 bytes; they are only ever copied.
    - A Python [dict] used as a map is a [gmap]; the registry, whose order
      is significant, is an association list.
    - The two language-model calls (routing chain, generation chain) are
      oracles of an environment; each may return a text or raise.  Every
      call is recorded in a log, so that "no call was made" is a statement
      about the log.
    - Diagnostic [print]s inside the router and the nodes are left out. *)

From Stdlib Require Import ZArith Ascii String List Bool Lia.
From stdpp Require Import base option list gmap strings pretty.

Local Open Scope Z_scope.

(** ** Python string primitives *)

Module Py.

(** The string made of one double quote (code point 34). *)
Definition dq : string := String (ascii_of_nat 34) EmptyString.

(** The line feed, [\n]. *)
Definition nl : string := String (ascii_of_nat 10) EmptyString.

Definition code (c : ascii) : nat := nat_of_ascii c.

(** [str.lower] on one code point below 256: A-Z and the upper-case
    letters of the Latin-1 supplement (U+00C0-U+00DE except U+00D7). *)
Definition lower_char (c : ascii) : ascii :=
  let n := code c in
  if ((65 <=? n) && (n <=? 90))%nat then ascii_of_nat (n + 32)
  else if ((192 <=? n) && (n <=? 222) && negb (n =? 215))%nat
       then ascii_of_nat (n + 32)
  else c.

Fixpoint lower (s : string) : string :=
  match s with
  | EmptyString => EmptyString
  | String c t => String (lower_char c) (lower t)
  end.

(** [str.isspace] for one code point below 256. *)
Definition isspace (c : ascii) : bool :=
  let n := code c in
  (((9 <=? n) && (n <=? 13)) || ((28 <=? n) && (n <=? 32))
   || (n =? 133) || (n =? 160))%nat.

Definition is_empty (s : string) : bool :=
  match s with EmptyString => true | String _ _ => false end.

(** The truth test on a list: it is not empty. *)
Definition nonempty {A} (l : list A) : bool :=
  match l with [] => false | _ :: _ => true end.

(** [needle in hay]. *)
Fixpoint contains (needle hay : string) : bool :=
  String.prefix needle hay ||
  match hay with
  | EmptyString => false
  | String _ t => contains needle t
  end.

(** [any(kw in hay for kw in kws)]. *)
Definition any_in (kws : list string) (hay : string) : bool :=
  existsb (fun kw => contains kw hay) kws.

(** [x in xs] for a list of strings. *)
Definition mem (x : string) (xs : list string) : bool :=
  existsb (String.eqb x) xs.

Fixpoint lstrip (s : string) : string :=
  match s with
  | EmptyString => EmptyString
  | String c t => if isspace c then lstrip t else s
  end.

Fixpoint rstrip (s : string) : string :=
  match s with
  | EmptyString => EmptyString
  | String c t =>
      let t' := rstrip t in
      if isspace c && is_empty t' then EmptyString else String c t'
  end.

(** [str.strip()]. *)
Definition strip (s : string) : string := rstrip (lstrip s).

(** [str.split()]: maximal runs of non-space characters. *)
Fixpoint split_go (cur : string) (s : string) : list string :=
  match s with
  | EmptyString => if is_empty cur then [] else [cur]
  | String c t =>
      if isspace c
      then (if is_empty cur then split_go EmptyString t
            else cur :: split_go EmptyString t)
      else split_go (cur +:+ String c EmptyString) t
  end.

Definition split (s : string) : list string := split_go EmptyString s.

(** [sep.join(xs)]. *)
Definition join (sep : string) (xs : list string) : string :=
  String.concat sep xs.

Definition is_ascii_lower (c : ascii) : bool :=
  ((97 <=? code c) && (code c <=? 122))%nat.
Definition is_ascii_upper (c : ascii) : bool :=
  ((65 <=? code c) && (code c <=? 90))%nat.

(** [str.title()], on the ASCII letters; the program applies it to
    lower-case ASCII literals only. *)
Fixpoint title_go (prev_cased : bool) (s : string) : string :=
  match s with
  | EmptyString => EmptyString
  | String c t =>
      if is_ascii_lower c || is_ascii_upper c then
        let c' := if prev_cased
                  then lower_char c
                  else if is_ascii_lower c
                       then ascii_of_nat (code c - 32) else c in
        String c' (title_go true t)
      else String c (title_go false t)
  end.

Definition title (s : string) : string := title_go false s.

Definition is_digit (c : ascii) : bool :=
  ((48 <=? code c) && (code c <=? 57))%nat.

(** The leading run of digits of [s] and what follows it. *)
Fixpoint span_digits (s : string) : string * string :=
  match s with
  | EmptyString => (EmptyString, EmptyString)
  | String c t =>
      if is_digit c
      then let '(d, r) := span_digits t in (String c d, r)
      else (EmptyString, s)
  end.

(** [re.findall(r'\d+', s)[0]] when the list is not empty. *)
Fixpoint first_number (s : string) : option string :=
  match s with
  | EmptyString => None
  | String c t =>
      if is_digit c then Some (fst (span_digits s)) else first_number t
  end.

(** [int(d)] for a string of decimal digits. *)
Definition int_of_digits (d : string) : Z :=
  fold_left (fun acc c => 10 * acc + Z.of_nat (code c - 48))
            (list_ascii_of_string d) 0.

(** [int(d)] converts at most this many digits (the interpreter's default
    limit on integer string conversion); beyond it, [int] raises
    [ValueError]. *)
Definition int_max_str_digits : nat := 4300.

Definition int_raises (d : string) : bool :=
  (int_max_str_digits <? String.length d)%nat.

(** The text of that [ValueError]. *)
Definition int_error (d : string) : string :=
  "Exceeds the limit (4300 digits) for integer string conversion: value has "
  +:+ pretty (String.length d)
  +:+ " digits; use sys.set_int_max_str_digits() to increase the limit".

(** [c * n] for a one-character string [c]. *)
Fixpoint repeat_char (c : ascii) (n : nat) : string :=
  match n with
  | O => EmptyString
  | S n => String c (repeat_char c n)
  end.

(** [str(n)] for an integer. *)
Definition str_of_int (n : Z) : string := pretty n.

End Py.


(** ** Shared state ([state.py]) *)

(** A scratchpad value: the program stores strings and one integer. *)
Inductive value :=
| VStr (s : string)
| VInt (n : Z).

(** Python's truth test on a value. *)
Definition truthy (v : value) : bool :=
  match v with
  | VStr s => negb (Py.is_empty s)
  | VInt n => negb (n =? 0)
  end.

(** The truth test on the result of [d.get(k)]. *)
Definition truthy_get (o : option value) : bool :=
  match o with Some v => truthy v | None => false end.

(** The truth test on an optional string. *)
Definition truthy_str (o : option string) : bool :=
  match o with Some s => negb (Py.is_empty s) | None => false end.

(** [str(v)], as used when a value is put into a text. *)
Definition str_of_value (v : value) : string :=
  match v with
  | VStr s => s
  | VInt n => Py.str_of_int n
  end.

Record Message := {
  role : string;
  content : string;
  timestamp : option string
}.

Record RootAgentState := {
  user_id : string;
  user_role : string;
  user_query : string;
  conversation_history : list Message;
  current_agent : option string;
  current_agent_awaiting_parameters : option string;
  sub_agent_scratchpad : gmap string value;
  system_response : string;
  error : option string;
  current_assignment_id : option string;
  current_topic : option string
}.

Definition set_user_query (q : string) (st : RootAgentState) :=
  {| user_id := user_id st; user_role := user_role st; user_query := q;
     conversation_history := conversation_history st;
     current_agent := current_agent st;
     current_agent_awaiting_parameters := current_agent_awaiting_parameters st;
     sub_agent_scratchpad := sub_agent_scratchpad st;
     system_response := system_response st; error := error st;
     current_assignment_id := current_assignment_id st;
     current_topic := current_topic st |}.

Definition set_conversation_history (h : list Message) (st : RootAgentState) :=
  {| user_id := user_id st; user_role := user_role st;
     user_query := user_query st; conversation_history := h;
     current_agent := current_agent st;
     current_agent_awaiting_parameters := current_agent_awaiting_parameters st;
     sub_agent_scratchpad := sub_agent_scratchpad st;
     system_response := system_response st; error := error st;
     current_assignment_id := current_assignment_id st;
     current_topic := current_topic st |}.

Definition set_current_agent (a : option string) (st : RootAgentState) :=
  {| user_id := user_id st; user_role := user_role st;
     user_query := user_query st;
     conversation_history := conversation_history st; current_agent := a;
     current_agent_awaiting_parameters := current_agent_awaiting_parameters st;
     sub_agent_scratchpad := sub_agent_scratchpad st;
     system_response := system_response st; error := error st;
     current_assignment_id := current_assignment_id st;
     current_topic := current_topic st |}.

Definition set_awaiting (a : option string) (st : RootAgentState) :=
  {| user_id := user_id st; user_role := user_role st;
     user_query := user_query st;
     conversation_history := conversation_history st;
     current_agent := current_agent st;
     current_agent_awaiting_parameters := a;
     sub_agent_scratchpad := sub_agent_scratchpad st;
     system_response := system_response st; error := error st;
     current_assignment_id := current_assignment_id st;
     current_topic := current_topic st |}.

Definition set_scratchpad (sp : gmap string value) (st : RootAgentState) :=
  {| user_id := user_id st; user_role := user_role st;
     user_query := user_query st;
     conversation_history := conversation_history st;
     current_agent := current_agent st;
     current_agent_awaiting_parameters := current_agent_awaiting_parameters st;
     sub_agent_scratchpad := sp;
     system_response := system_response st; error := error st;
     current_assignment_id := current_assignment_id st;
     current_topic := current_topic st |}.

Definition set_system_response (r : string) (st : RootAgentState) :=
  {| user_id := user_id st; user_role := user_role st;
     user_query := user_query st;
     conversation_history := conversation_history st;
     current_agent := current_agent st;
     current_agent_awaiting_parameters := current_agent_awaiting_parameters st;
     sub_agent_scratchpad := sub_agent_scratchpad st;
     system_response := r; error := error st;
     current_assignment_id := current_assignment_id st;
     current_topic := current_topic st |}.

(** ** External capabilities and the call log *)

(** What the routing chain is invoked with ([routing_input] in [route]). *)
Record routing_input := {
  ri_user_role : string;
  ri_current_agent_awaiting_parameters : option string;
  ri_conversation_history : string;
  ri_user_query : string
}.

(** What a generation chain is invoked with: the variables of the prompt
    of each handler's [generate_response]. *)
Inductive gen_request :=
| AssignmentPrompt
    (assignment_title grade status feedback due_date query : string)
| LearningPrompt (topic skill_level resources query : string)
| QuestionPrompt (count difficulty topic : string)
| FallbackPrompt (query : string).

Inductive call :=
| Classify (inp : routing_input)
| Generate (req : gen_request).

(** The outcome of a computation: a value, or a raised exception with its
    message. *)
Inductive result (A : Type) :=
| Ok (a : A)
| Raise (e : string).
Arguments Ok {A} a.
Arguments Raise {A} e.

Record Env := {
  routing_chain : routing_input -> result string;
  llm : gen_request -> result string;
  now : nat -> string
}.

(** A computation: the external calls it made, in order, and its outcome.
    The log survives an exception. *)
Definition M (A : Type) : Type := (list call * result A)%type.

Definition ret {A} (a : A) : M A := ([], Ok a).

Definition bind {A B} (m : M A) (k : A -> M B) : M B :=
  match m with
  | (l1, Ok a) => let '(l2, r) := k a in (l1 ++ l2, r)
  | (l1, Raise e) => (l1, Raise e)
  end.

Notation "'let*' x ':=' m 'in' k" := (bind m (fun x => k))
  (at level 10, x name, m at level 100, k at level 200).

Definition calls {A} (m : M A) : list call := fst m.
Definition outcome {A} (m : M A) : result A := snd m.

Definition invoke_routing_chain (env : Env) (inp : routing_input) : M string :=
  ([Classify inp], routing_chain env inp).

Definition invoke_llm (env : Env) (req : gen_request) : M string :=
  ([Generate req], llm env req).

Definition is_classify (c : call) : bool :=
  match c with Classify _ => true | Generate _ => false end.
Definition is_generate (c : call) : bool :=
  match c with Classify _ => false | Generate _ => true end.

(** ** Registry and router ([root_agent.py]) *)

Module AgentInfo.

Record entry := {
  name : string;
  description : string;
  keywords : list string;
  roles : list string;
  parameters : list string
}.

Definition AGENTS : list (string * entry) :=
  [ ("assignment_review_agent",
     {| name := "Assignment Review & Insight Agent";
        description := "Handles queries about assignments, grades, feedback, performance insights, and past reports";
        keywords := ["assignment"; "grade"; "feedback"; "status"; "due date";
                     "results"; "performance"; "insights"; "score"; "report";
                     "reports"; "past"; "previous"; "history"; "how did I do";
                     "my work"];
        roles := ["Consultant"];
        parameters := ["assignment_id"; "assignment_title"] |});
    ("learning_path_agent",
     {| name := "Learning Path Recommendation Agent";
        description := "Provides learning recommendations, course suggestions, and study plans";
        keywords := ["learn"; "study"; "recommend"; "course"; "path"; "plan";
                     "guide"; "resources"; "progress"; "tutorial";
                     "want to learn"; "teach me"; "improve"];
        roles := ["Consultant"];
        parameters := ["topic"; "skill_level"] |});
    ("question_generation_agent",
     {| name := "Question Generation Agent";
        description := "Generates practice questions, quizzes, and assessments";
        keywords := ["generate"; "create"; "quiz"; "questions"; "test";
                     "practice"; "assessment"; "exam"];
        roles := ["Admin"];
        parameters := ["topic"; "difficulty"; "question_count"] |});
    ("faq_fallback_agent",
     {| name := "FAQ & Fallback Agent";
        description := "Handles general queries, FAQs, greetings, and fallback scenarios";
        keywords := ["help"; "how to"; "what is"; "faq"; "hello"; "hi";
                     "thank"; "general"];
        roles := ["All"];
        parameters := [] |}) ].

(** [AGENTS.get(agent_name, {})]; [None] stands for the empty dict. *)
Fixpoint lookup_agent (l : list (string * entry)) (agent_name : string)
  : option entry :=
  match l with
  | [] => None
  | (k, e) :: rest =>
      if String.eqb k agent_name then Some e else lookup_agent rest agent_name
  end.

Definition get_agent_info (agent_name : string) : option entry :=
  lookup_agent AGENTS agent_name.

Definition get_all_agents : list (string * entry) := AGENTS.

End AgentInfo.

Module RootAgentRouter.

Record analysis := {
  has_awaiting_parameters : bool;
  awaiting_agent : option string;
  conversation_length : nat;
  has_scratchpad_data : bool;
  is_abandonment : bool
}.

Definition abandonment_keywords : list string :=
  ["never mind"; "cancel"; "forget it"; "stop"; "quit"].

Definition analyze_context (st : RootAgentState) : analysis :=
  let user_query_lower := Py.lower (user_query st) in
  {| has_awaiting_parameters :=
       match current_agent_awaiting_parameters st with
       | Some _ => true | None => false end;
     awaiting_agent := current_agent_awaiting_parameters st;
     conversation_length := length (conversation_history st);
     has_scratchpad_data :=
       negb (bool_decide (sub_agent_scratchpad st = ∅));
     is_abandonment := Py.any_in abandonment_keywords user_query_lower |}.

Definition check_role_permission (agent_name user_role : string) : bool :=
  match AgentInfo.get_agent_info agent_name with
  | None => false
  | Some agent_info =>
      let allowed_roles := AgentInfo.roles agent_info in
      Py.mem "All" allowed_roles || Py.mem user_role allowed_roles
  end.

(** [xs[-5:]]. *)
Definition last5 {A} (xs : list A) : list A :=
  drop (length xs - 5)%nat xs.

Definition format_history (st : RootAgentState) : string :=
  Py.join Py.nl
    (map (fun msg => role msg +:+ ": " +:+ content msg)
         (last5 (conversation_history st))).

Definition make_routing_input (st : RootAgentState) : routing_input :=
  let conv_history := format_history st in
  {| ri_user_role := user_role st;
     ri_current_agent_awaiting_parameters :=
       current_agent_awaiting_parameters st;
     ri_conversation_history :=
       if Py.is_empty conv_history then "No previous conversation"
       else conv_history;
     ri_user_query := user_query st |}.

(** The name held by [agent_name] after the [CONTINUE_CURRENT] step. *)
Definition resolve (st : RootAgentState) (agent_name : string) : string :=
  if String.eqb agent_name "CONTINUE_CURRENT"
     && truthy_str (current_agent_awaiting_parameters st)
  then default agent_name (current_agent_awaiting_parameters st)
  else agent_name.

(** The permission check that ends [route]. *)
Definition gate (st : RootAgentState) (agent_name : string) : string :=
  if negb (String.eqb agent_name "faq_fallback_agent") then
    if negb (check_role_permission agent_name (user_role st))
    then "faq_fallback_agent"
    else agent_name
  else agent_name.

Definition route (env : Env) (st : RootAgentState) : M string :=
  let context := analyze_context st in
  if is_abandonment context && has_awaiting_parameters context
  then ret "faq_fallback_agent"
  else
    let* raw := invoke_routing_chain env (make_routing_input st) in
    let agent_name := Py.strip raw in
    let agent_name := resolve st agent_name in
    ret (gate st agent_name).

End RootAgentRouter.

Definition router_node (env : Env) (st : RootAgentState) : M RootAgentState :=
  let* agent_name := RootAgentRouter.route env st in
  ret (set_current_agent (Some agent_name) st).

(** ** Handlers ([agents/*.py]) *)

(** What [validate_parameters] returns. *)
Record validation := {
  complete : bool;
  missing : list string;
  clarification : option string
}.

Module AssignmentReviewAgent.

Definition validate_parameters (st : RootAgentState) : validation :=
  let scratchpad := sub_agent_scratchpad st in
  let has_assignment :=
    truthy_get (scratchpad !! "assignment_id")
    || truthy_get (scratchpad !! "assignment_title") in
  if negb has_assignment then
    {| complete := false;
       missing := ["assignment_id or assignment_title"];
       clarification := Some "Which assignment are you interested in? Please provide the assignment name or ID." |}
  else {| complete := true; missing := []; clarification := None |}.

(** The [for i, word in enumerate(words)] loop: [rest] is [words[i+1:]]. *)
Fixpoint scan_words (words : list string) (scratchpad : gmap string value)
  : gmap string value :=
  match words with
  | [] => scratchpad
  | word :: rest =>
      let scratchpad' :=
        if Py.mem (Py.lower word) ["assignment"; "task"; "homework"]
           && Py.nonempty rest
        then <["assignment_title" := VStr (Py.join " " (take 2 rest))]>
               scratchpad
        else scratchpad in
      scan_words rest scratchpad'
  end.

Definition extract_parameters (st : RootAgentState) : RootAgentState :=
  let user_query_lower := Py.lower (user_query st) in
  let scratchpad := sub_agent_scratchpad st in
  let scratchpad :=
    if Py.contains "python" user_query_lower
       && Py.contains "basic" user_query_lower
    then <["assignment_title" := VStr "Python Basics"]> scratchpad
    else if Py.contains "assignment" user_query_lower
    then scan_words (Py.split (user_query st)) scratchpad
    else scratchpad in
  set_scratchpad scratchpad st.

(** One row of the mock table of [get_assignment_results]. *)
Record results := {
  grade : string;
  feedback : string;
  due_date : string;
  status : string;
  submission_date : option string
}.

Definition mock_assignments : list (string * results) :=
  [ ("Python Basics",
     {| grade := "85%";
        feedback := "Good understanding of core concepts, but consider reviewing list comprehensions for efficiency.";
        due_date := "2025-11-15";
        status := "Completed";
        submission_date := Some "2025-11-10" |});
    ("Data Structures",
     {| grade := "92%";
        feedback := "Excellent work on implementing binary trees. Great optimization!";
        due_date := "2025-11-20";
        status := "Completed";
        submission_date := Some "2025-11-18" |}) ].

Definition not_found : results :=
  {| grade := "Not available";
     feedback := "Assignment not found or not yet graded.";
     due_date := "N/A";
     status := "Unknown";
     submission_date := None |}.

Fixpoint lookup_results (l : list (string * results)) (k : string)
  : option results :=
  match l with
  | [] => None
  | (k', r) :: rest => if String.eqb k' k then Some r else lookup_results rest k
  end.

Definition get_assignment_results (assignment_title : value)
    (user_id : string) : results :=
  match assignment_title with
  | VStr t => default not_found (lookup_results mock_assignments t)
  | VInt _ => not_found
  end.

Definition generate_response (env : Env) (st : RootAgentState) : M string :=
  let scratchpad := sub_agent_scratchpad st in
  let assignment_title :=
    default (VStr "Unknown") (scratchpad !! "assignment_title") in
  let results := get_assignment_results assignment_title (user_id st) in
  invoke_llm env
    (AssignmentPrompt (str_of_value assignment_title) (grade results)
       (status results) (feedback results) (due_date results)
       (user_query st)).

End AssignmentReviewAgent.

Definition assignment_review_node (env : Env) (st : RootAgentState)
  : M RootAgentState :=
  let st := AssignmentReviewAgent.extract_parameters st in
  let validation := AssignmentReviewAgent.validate_parameters st in
  if negb (complete validation) then
    let st := set_system_response
                (default EmptyString (clarification validation)) st in
    ret (set_awaiting (Some "assignment_review_agent") st)
  else
    let* response := AssignmentReviewAgent.generate_response env st in
    let st := set_system_response response st in
    let st := set_awaiting None st in
    ret (set_scratchpad ∅ st).

Module LearningPathAgent.

Definition clarification_text (missing : list string) : string :=
  let clarification :=
    "To recommend the best learning resources for you, I need:" +:+ Py.nl in
  let clarification :=
    if Py.mem "topic" missing
    then clarification +:+ "- What topic would you like to learn?" +:+ Py.nl
    else clarification in
  let clarification :=
    if Py.mem "skill_level" missing
    then clarification
         +:+ "- What is your current skill level? (Beginner/Intermediate/Advanced)"
         +:+ Py.nl
    else clarification in
  Py.strip clarification.

Definition validate_parameters (st : RootAgentState) : validation :=
  let scratchpad := sub_agent_scratchpad st in
  let missing := [] in
  let missing :=
    if negb (truthy_get (scratchpad !! "topic"))
    then missing ++ ["topic"] else missing in
  let missing :=
    if negb (truthy_get (scratchpad !! "skill_level"))
    then missing ++ ["skill_level"] else missing in
  if Py.nonempty missing then
    {| complete := false;
       missing := missing;
       clarification := Some (clarification_text missing) |}
  else {| complete := true; missing := []; clarification := None |}.

Definition topics : list string :=
  ["machine learning"; "python"; "data science"; "nlp";
   "natural language processing"; "deep learning"; "web development";
   "javascript"; "react"; "sql"; "databases"].

(** The [for topic in topics] loop with its [break]. *)
Fixpoint extract_topic (topics : list string) (user_query_lower : string)
    (scratchpad : gmap string value) : gmap string value :=
  match topics with
  | [] => scratchpad
  | topic :: rest =>
      if Py.contains topic user_query_lower then
        let scratchpad := <["topic" := VStr (Py.title topic)]> scratchpad in
        if String.eqb topic "nlp"
        then <["topic" := VStr "Natural Language Processing"]> scratchpad
        else scratchpad
      else extract_topic rest user_query_lower scratchpad
  end.

Definition extract_parameters (st : RootAgentState) : RootAgentState :=
  let user_query_lower := Py.lower (user_query st) in
  let scratchpad := sub_agent_scratchpad st in
  let scratchpad := extract_topic topics user_query_lower scratchpad in
  let scratchpad :=
    if Py.contains "beginner" user_query_lower
       || Py.contains "new to" user_query_lower
       || Py.contains "starting" user_query_lower
    then <["skill_level" := VStr "Beginner"]> scratchpad
    else if Py.contains "intermediate" user_query_lower
            || Py.contains "some experience" user_query_lower
    then <["skill_level" := VStr "Intermediate"]> scratchpad
    else if Py.contains "advanced" user_query_lower
            || Py.contains "expert" user_query_lower
    then <["skill_level" := VStr "Advanced"]> scratchpad
    else scratchpad in
  set_scratchpad scratchpad st.

(** One learning resource of the mock table. *)
Record resource := {
  r_type : string;
  r_title : option string;
  r_platform : option string;
  r_author : option string
}.

Definition course (t p : string) : resource :=
  {| r_type := "Course"; r_title := Some t; r_platform := Some p;
     r_author := None |}.
Definition book (t a : string) : resource :=
  {| r_type := "Book"; r_title := Some t; r_platform := None;
     r_author := Some a |}.
Definition project (t : string) : resource :=
  {| r_type := "Project"; r_title := Some t; r_platform := None;
     r_author := None |}.

(** U+00E9, e with acute accent. *)
Definition e_acute : string := String (ascii_of_nat 233) EmptyString.

Definition resources : list (string * list (string * list resource)) :=
  [ ("Machine Learning",
     [ ("Beginner",
        [ course "Machine Learning Basics" "Coursera";
          book "Hands-On Machine Learning"
               ("Aur" +:+ e_acute +:+ "lien G" +:+ e_acute +:+ "ron");
          project "Build a simple linear regression model" ]);
       ("Intermediate",
        [ course "Advanced ML Techniques" "edX";
          book "Pattern Recognition and Machine Learning" "Bishop";
          project "Create an image classifier using CNNs" ]) ]);
    ("Natural Language Processing",
     [ ("Intermediate",
        [ course "Introduction to NLP with Python" "Coursera";
          book "Speech and Language Processing" "Jurafsky & Martin";
          project "Build a sentiment analysis model using NLTK" ]) ]) ].

Fixpoint assoc {A} (l : list (string * A)) (k : string) : option A :=
  match l with
  | [] => None
  | (k', a) :: rest => if String.eqb k' k then Some a else assoc rest k
  end.

(** [d.get(k)] for a key that is a scratchpad value: only a string can be
    a key of the tables. *)
Definition assoc_value {A} (l : list (string * A)) (k : value) : option A :=
  match k with VStr s => assoc l s | VInt _ => None end.

Definition recommend_learning_resources (topic skill_level : value)
  : list resource :=
  default
    [ {| r_type := "General";
         r_title := Some ("Start with foundational courses in "
                          +:+ str_of_value topic);
         r_platform := None; r_author := None |} ]
    (assoc_value (default [] (assoc_value resources topic)) skill_level).

Definition format_resource (r : resource) : string :=
  let platform_or_author :=
    if truthy_str (r_platform r) then default EmptyString (r_platform r)
    else default EmptyString (r_author r) in
  let suffix :=
    if Py.is_empty platform_or_author then EmptyString
    else " (" +:+ platform_or_author +:+ ")" in
  "- " +:+ r_type r +:+ ": '" +:+ default "N/A" (r_title r) +:+ "'" +:+ suffix.

Definition generate_response (env : Env) (st : RootAgentState) : M string :=
  let scratchpad := sub_agent_scratchpad st in
  let topic := default (VStr "Unknown") (scratchpad !! "topic") in
  let skill_level := default (VStr "Beginner") (scratchpad !! "skill_level") in
  let resources := recommend_learning_resources topic skill_level in
  let resources_text := Py.join Py.nl (map format_resource resources) in
  invoke_llm env
    (LearningPrompt (str_of_value topic) (str_of_value skill_level)
       resources_text (user_query st)).

End LearningPathAgent.

Definition learning_path_node (env : Env) (st : RootAgentState)
  : M RootAgentState :=
  let st := LearningPathAgent.extract_parameters st in
  let validation := LearningPathAgent.validate_parameters st in
  if negb (complete validation) then
    let st := set_system_response
                (default EmptyString (clarification validation)) st in
    ret (set_awaiting (Some "learning_path_agent") st)
  else
    let* response := LearningPathAgent.generate_response env st in
    let st := set_system_response response st in
    let st := set_awaiting None st in
    ret (set_scratchpad ∅ st).

Module QuestionGenerationAgent.

Definition check_permissions (st : RootAgentState) : bool :=
  String.eqb (user_role st) "Admin".

Definition clarification_text (missing : list string) : string :=
  let clarification := "To generate questions, I need:" +:+ Py.nl in
  let clarification :=
    if Py.mem "topic" missing
    then clarification +:+ "- What topic should the questions cover?" +:+ Py.nl
    else clarification in
  let clarification :=
    if Py.mem "difficulty" missing
    then clarification +:+ "- What difficulty level? (Easy/Medium/Hard)"
         +:+ Py.nl
    else clarification in
  Py.strip clarification.

(** [validate_parameters] writes the default count into the scratchpad it
    was handed, which is the state's own dict: the state is returned along
    with the verdict. *)
Definition validate_parameters (st : RootAgentState)
  : validation * RootAgentState :=
  let scratchpad := sub_agent_scratchpad st in
  let missing := [] in
  let missing :=
    if negb (truthy_get (scratchpad !! "topic"))
    then missing ++ ["topic"] else missing in
  let missing :=
    if negb (truthy_get (scratchpad !! "difficulty"))
    then missing ++ ["difficulty"] else missing in
  let scratchpad :=
    if negb (truthy_get (scratchpad !! "question_count"))
    then <["question_count" := VInt 5]> scratchpad
    else scratchpad in
  let st := set_scratchpad scratchpad st in
  if Py.nonempty missing then
    ({| complete := false;
        missing := missing;
        clarification := Some (clarification_text missing) |}, st)
  else ({| complete := true; missing := []; clarification := None |}, st).

Definition topics : list string :=
  ["python"; "machine learning"; "data science"; "sql"; "javascript";
   "algorithms"; "data structures"; "web development"].

(** The [for topic in topics] loop with its [break]. *)
Fixpoint extract_topic (topics : list string) (user_query_lower : string)
    (scratchpad : gmap string value) : gmap string value :=
  match topics with
  | [] => scratchpad
  | topic :: rest =>
      if Py.contains topic user_query_lower
      then <["topic" := VStr (Py.title topic)]> scratchpad
      else extract_topic rest user_query_lower scratchpad
  end.

(** The body of [extract_parameters].  It writes into the state's own
    dict, and [int(numbers[0])] raises [ValueError] on a digit run beyond
    the limit, after the topic and the difficulty have been written: the
    result is the state as the body leaves it, and the message of the
    exception when it raises. *)
Definition extract_parameters_run (st : RootAgentState)
  : RootAgentState * option string :=
  let user_query_lower := Py.lower (user_query st) in
  let scratchpad := sub_agent_scratchpad st in
  let scratchpad := extract_topic topics user_query_lower scratchpad in
  let scratchpad :=
    if Py.contains "easy" user_query_lower
       || Py.contains "beginner" user_query_lower
    then <["difficulty" := VStr "Easy"]> scratchpad
    else if Py.contains "medium" user_query_lower
            || Py.contains "intermediate" user_query_lower
    then <["difficulty" := VStr "Medium"]> scratchpad
    else if Py.contains "hard" user_query_lower
            || Py.contains "advanced" user_query_lower
            || Py.contains "difficult" user_query_lower
    then <["difficulty" := VStr "Hard"]> scratchpad
    else scratchpad in
  match Py.first_number user_query_lower with
  | Some number =>
      if Py.int_raises number
      then (set_scratchpad scratchpad st, Some (Py.int_error number))
      else (set_scratchpad
              (<["question_count" := VInt (Py.int_of_digits number)]>
                 scratchpad) st,
            None)
  | None => (set_scratchpad scratchpad st, None)
  end.

(** The state [extract_parameters] leaves, whether it returns or raises. *)
Definition extract_parameters (st : RootAgentState) : RootAgentState :=
  fst (extract_parameters_run st).

(** The [ValueError] of [extract_parameters], when it raises. *)
Definition extract_parameters_raises (st : RootAgentState) : option string :=
  snd (extract_parameters_run st).

Definition generate_questions (env : Env) (topic difficulty count : value)
  : M string :=
  invoke_llm env
    (QuestionPrompt (str_of_value count) (str_of_value difficulty)
       (str_of_value topic)).

Definition generate_response (env : Env) (st : RootAgentState) : M string :=
  let scratchpad := sub_agent_scratchpad st in
  let topic := default (VStr "Unknown") (scratchpad !! "topic") in
  let difficulty := default (VStr "Medium") (scratchpad !! "difficulty") in
  let count := default (VInt 5) (scratchpad !! "question_count") in
  let* questions := generate_questions env topic difficulty count in
  let response :=
    "I've generated " +:+ str_of_value count +:+ " "
    +:+ str_of_value difficulty +:+ " level questions about "
    +:+ str_of_value topic +:+ ":" +:+ Py.nl +:+ Py.nl +:+ questions in
  let response :=
    response +:+ Py.nl +:+ Py.nl
    +:+ "Would you like me to generate more questions or modify these?" in
  ret response.

Definition denial : string :=
  "I'm sorry, but question generation is only available to Admin users. You are currently logged in as a Consultant.".

End QuestionGenerationAgent.

Definition question_generation_node (env : Env) (st : RootAgentState)
  : M RootAgentState :=
  if negb (QuestionGenerationAgent.check_permissions st) then
    let st := set_system_response QuestionGenerationAgent.denial st in
    let st := set_awaiting None st in
    ret (set_scratchpad ∅ st)
  else
    match QuestionGenerationAgent.extract_parameters_run st with
    | (_, Some e) => ([], Raise e)
    | (st, None) =>
        let '(validation, st) :=
          QuestionGenerationAgent.validate_parameters st in
        if negb (complete validation) then
          let st := set_system_response
                      (default EmptyString (clarification validation)) st in
          ret (set_awaiting (Some "question_generation_agent") st)
        else
          let* response := QuestionGenerationAgent.generate_response env st in
          let st := set_system_response response st in
          let st := set_awaiting None st in
          ret (set_scratchpad ∅ st)
    end.

Module FAQFallbackAgent.

Definition faq_db : list (string * string) :=
  [ ("how to submit assignment",
     "To submit an assignment, log into the portal, navigate to your Assignments section, select the assignment, and click the "
     +:+ Py.dq +:+ "Submit" +:+ Py.dq
     +:+ " button. You can upload files or paste your work directly.");
    ("how to check grades",
     "You can check your grades by going to the Assignments section and clicking on any completed assignment. Your grade and feedback will be displayed.");
    ("forgot password",
     "To reset your password, click on " +:+ Py.dq +:+ "Forgot Password"
     +:+ Py.dq
     +:+ " on the login page. Enter your email, and you'll receive a password reset link.");
    ("portal features",
     "The portal offers assignment tracking, grade viewing, learning path recommendations, and practice question generation (for admins). You can also view your performance insights.");
    ("contact support",
     "You can contact support by emailing support@studyportal.com or using the "
     +:+ Py.dq +:+ "Contact Us" +:+ Py.dq
     +:+ " form in the Help section.") ].

(** The [for key, answer in self.faq_db.items()] loop. *)
Fixpoint search_db (db : list (string * string)) (user_query_lower : string)
  : option string :=
  match db with
  | [] => None
  | (key, answer) :: rest =>
      if Py.any_in (Py.split key) user_query_lower then Some answer
      else search_db rest user_query_lower
  end.

Definition search_faq (user_query : string) : option string :=
  search_db faq_db (Py.lower user_query).

Definition greetings : list string :=
  ["hello"; "hi"; "hey"; "good morning"; "good afternoon"; "good evening"].

Definition handle_greeting (user_query : string) : bool :=
  if Py.any_in greetings (Py.lower user_query) then true else false.

Definition thanks : list string :=
  ["thank"; "thanks"; "appreciate"; "grateful"].

Definition handle_thanks (user_query : string) : bool :=
  Py.any_in thanks (Py.lower user_query).

Definition greeting_text : string :=
  "Hello! I'm here to help you with your study portal. You can ask me about:"
  +:+ Py.nl +:+ "- Your assignments and grades"
  +:+ Py.nl +:+ "- Learning recommendations"
  +:+ Py.nl +:+ "- General questions about the portal"
  +:+ Py.nl +:+ Py.nl +:+ "What would you like to know?".

Definition thanks_text : string :=
  "You're welcome! Feel free to ask if you need anything else. Happy learning! 😊".

Definition generate_response (env : Env) (st : RootAgentState) : M string :=
  let user_query := user_query st in
  if handle_greeting user_query then ret greeting_text
  else if handle_thanks user_query then ret thanks_text
  else
    let faq_answer := search_faq user_query in
    if truthy_str faq_answer then ret (default EmptyString faq_answer)
    else invoke_llm env (FallbackPrompt user_query).

End FAQFallbackAgent.

Definition faq_fallback_node (env : Env) (st : RootAgentState)
  : M RootAgentState :=
  let* response := FAQFallbackAgent.generate_response env st in
  let st := set_system_response response st in
  let st := set_awaiting None st in
  ret (set_scratchpad ∅ st).

(** ** The graph and the turn entry point ([orchestrator.py]) *)

(** [graph.invoke(state)]: the router node, then the node its conditional
    edge selects by [state['current_agent']], then the end.  A name without
    an edge makes the graph library raise. *)
Definition graph_invoke (env : Env) (st : RootAgentState) : M RootAgentState :=
  let* st := router_node env st in
  let agent := default EmptyString (current_agent st) in
  if String.eqb agent "assignment_review_agent"
  then assignment_review_node env st
  else if String.eqb agent "learning_path_agent"
  then learning_path_node env st
  else if String.eqb agent "question_generation_agent"
  then question_generation_node env st
  else if String.eqb agent "faq_fallback_agent"
  then faq_fallback_node env st
  else ([], Raise ("KeyError: " +:+ agent)).

(** The first half of [process_message]: the user message is appended to
    the history of the state it was handed. *)
Definition add_user_message (env : Env) (st : RootAgentState)
  : RootAgentState :=
  let user_message :=
    {| role := "user"; content := user_query st;
       timestamp := Some (now env (length (conversation_history st))) |} in
  set_conversation_history (conversation_history st ++ [user_message]) st.

Definition process_message (env : Env) (st : RootAgentState)
  : M RootAgentState :=
  let st := add_user_message env st in
  let* result := graph_invoke env st in
  let system_message :=
    {| role := "assistant"; content := system_response result;
       timestamp := Some (now env (length (conversation_history result))) |} in
  ret (set_conversation_history
         (conversation_history result ++ [system_message]) result).



(** The initial state built by [main] and by the socket handler. *)
Definition initial_state (user_id user_role : string) : RootAgentState :=
  {| user_id := user_id; user_role := user_role; user_query := EmptyString;
     conversation_history := []; current_agent := None;
     current_agent_awaiting_parameters := None;
     sub_agent_scratchpad := ∅; system_response := EmptyString;
     error := None; current_assignment_id := None; current_topic := None |}.

(** ** What a turn that raises leaves in the caller's state

    The graph hands each node a dict of its own that holds the same
    values.  An assignment to a key inside a node therefore does not reach
    the dict [process_message] was called with, but a write into the
    scratchpad does: the scratchpad of the node's dict is the caller's
    scratchpad dict.  When a node raises, the slots it had written stay. *)

(** The caller's scratchpad dict after [assignment_review_node] has run its
    extraction. *)
Definition assignment_review_in_place (st : RootAgentState)
  : gmap string value :=
  sub_agent_scratchpad (AssignmentReviewAgent.extract_parameters st).

Definition learning_path_in_place (st : RootAgentState)
  : gmap string value :=
  sub_agent_scratchpad (LearningPathAgent.extract_parameters st).

(** For the question node: nothing when the role check fails; the slots
    written before [int] raised; otherwise extraction and the default count
    of validation. *)
Definition question_generation_in_place (st : RootAgentState)
  : gmap string value :=
  if negb (QuestionGenerationAgent.check_permissions st)
  then sub_agent_scratchpad st
  else
    match QuestionGenerationAgent.extract_parameters_run st with
    | (st, Some _) => sub_agent_scratchpad st
    | (st, None) =>
        sub_agent_scratchpad
          (snd (QuestionGenerationAgent.validate_parameters st))
    end.

(** The fallback node writes nothing into the dict it is handed. *)
Definition faq_fallback_in_place (st : RootAgentState)
  : gmap string value :=
  sub_agent_scratchpad st.

(** The caller's scratchpad dict after [graph.invoke] has run on it. *)
Definition graph_in_place (env : Env) (st : RootAgentState)
  : gmap string value :=
  match outcome (router_node env st) with
  | Raise _ => sub_agent_scratchpad st
  | Ok st =>
      let agent := default EmptyString (current_agent st) in
      if String.eqb agent "assignment_review_agent"
      then assignment_review_in_place st
      else if String.eqb agent "learning_path_agent"
      then learning_path_in_place st
      else if String.eqb agent "question_generation_agent"
      then question_generation_in_place st
      else if String.eqb agent "faq_fallback_agent"
      then faq_fallback_in_place st
      else sub_agent_scratchpad st
  end.

(** The state [process_message] was called with, as it is when the call
    raises: the user message has been appended, and the scratchpad holds
    what the nodes wrote in place. *)
Definition state_after_raise (env : Env) (st : RootAgentState)
  : RootAgentState :=
  let st := add_user_message env st in
  set_scratchpad (graph_in_place env st) st.

(** ** The socket handler ([websocket_server.py]) *)

(** A JSON value that is not an object. *)
Inductive json_other :=
| JList | JStr | JInt | JFloat | JBool | JNull.

Definition json_other_type (k : json_other) : string :=
  match k with
  | JList => "list" | JStr => "str" | JInt => "int" | JFloat => "float"
  | JBool => "bool" | JNull => "NoneType"
  end.

(** A JSON value that is not a string. *)
Inductive json_nonstring :=
| QDict | QList | QInt | QFloat | QBool | QNull.

Definition json_nonstring_type (k : json_nonstring) : string :=
  match k with
  | QDict => "dict" | QList => "list" | QInt => "int" | QFloat => "float"
  | QBool => "bool" | QNull => "NoneType"
  end.

(** The text of the [AttributeError] for a missing method. *)
Definition attribute_error (type_name attr : string) : string :=
  "'" +:+ type_name +:+ "' object has no attribute '" +:+ attr +:+ "'".

(** An incoming frame: text that is not JSON; a JSON value that is not an
    object; a JSON object whose [user_query] entry is not a string; or a
    JSON object with its [user_query] text when it has that entry. *)
Inductive ws_frame :=
| NotJson
| JsonOther (kind : json_other)
| JsonObjectOther (user_query : json_nonstring)
| JsonObject (user_query : option string).

(** A message sent back to the client. *)
Inductive ws_message :=
| WsError (message : string)
| WsResponse (response : string) (agent_used : string)
    (awaiting_parameters : bool) (timestamp : string)
    (error : option string).

(** [handle_message]: the message sent, and the state that
    [self.session_state] holds after the call when the call changed it:
    the result of a turn that returned, to which it is rebound, or the
    state as a turn that raised left it.  Frames that are refused before
    the query is stored leave it alone. *)
Definition handle_message (env : Env) (session_state : RootAgentState)
    (frame : ws_frame) : list call * (option RootAgentState * ws_message) :=
  match frame with
  | NotJson => ([], (None, WsError "Invalid JSON format"))
  | JsonOther kind =>
      ([], (None,
            WsError ("Error processing message: "
                     +:+ attribute_error (json_other_type kind) "get")))
  | JsonObjectOther q =>
      ([], (None,
            WsError ("Error processing message: "
                     +:+ attribute_error (json_nonstring_type q) "strip")))
  | JsonObject q =>
      let user_query := Py.strip (default EmptyString q) in
      if Py.is_empty user_query
      then ([], (None, WsError "No query provided"))
      else
        let st := set_user_query user_query session_state in
        match process_message env st with
        | (log, Ok result) =>
            (log,
             (Some result,
              WsResponse (system_response result)
                (default "unknown" (current_agent result))
                (match current_agent_awaiting_parameters result with
                 | Some _ => true | None => false end)
                (now env (length (conversation_history result)))
                (if truthy_str (error result) then error result else None)))
        | (log, Raise e) =>
            (log,
             (Some (state_after_raise env st),
              WsError ("Error processing message: " +:+ e)))
        end
  end.

(** ** The three parameter-collecting handlers, side by side *)

Inductive handler :=
| Assignment
| LearningPath
| QuestionGeneration.

(** The node name of a handler, as the graph and the registry know it. *)
Definition handler_id (h : handler) : string :=
  match h with
  | Assignment => "assignment_review_agent"
  | LearningPath => "learning_path_agent"
  | QuestionGeneration => "question_generation_agent"
  end.

Definition extract_parameters_of (h : handler)
  : RootAgentState -> RootAgentState :=
  match h with
  | Assignment => AssignmentReviewAgent.extract_parameters
  | LearningPath => LearningPathAgent.extract_parameters
  | QuestionGeneration => QuestionGenerationAgent.extract_parameters
  end.

(** The exception a handler's extraction raises, when it raises: only the
    question handler's can. *)
Definition extract_raises_of (h : handler) (st : RootAgentState)
  : option string :=
  match h with
  | Assignment => None
  | LearningPath => None
  | QuestionGeneration => QuestionGenerationAgent.extract_parameters_raises st
  end.

(** The verdict of a handler's [validate_parameters] together with the
    state it leaves (only the question-generation handler writes to it). *)
Definition validate_parameters_of (h : handler) (st : RootAgentState)
  : validation * RootAgentState :=
  match h with
  | Assignment => (AssignmentReviewAgent.validate_parameters st, st)
  | LearningPath => (LearningPathAgent.validate_parameters st, st)
  | QuestionGeneration => QuestionGenerationAgent.validate_parameters st
  end.

Definition generate_response_of (h : handler)
  : Env -> RootAgentState -> M string :=
  match h with
  | Assignment => AssignmentReviewAgent.generate_response
  | LearningPath => LearningPathAgent.generate_response
  | QuestionGeneration => QuestionGenerationAgent.generate_response
  end.

Definition node_of (h : handler) : Env -> RootAgentState -> M RootAgentState :=
  match h with
  | Assignment => assignment_review_node
  | LearningPath => learning_path_node
  | QuestionGeneration => question_generation_node
  end.

(** The required parameters the registry declares for a handler. *)
Definition registry_parameters (h : handler) : list string :=
  match AgentInfo.get_agent_info (handler_id h) with
  | Some e => AgentInfo.parameters e
  | None => []
  end.

(** A parameter is satisfied when the scratchpad holds a value for it that
    passes Python's truth test (for a text: it is not empty). *)
Definition satisfied (scratchpad : gmap string value) (p : string) : bool :=
  truthy_get (scratchpad !! p).

(** The unsatisfied parameters among [params], in the order of [params]. *)
Definition unsatisfied (scratchpad : gmap string value)
    (params : list string) : list string :=
  List.filter (fun p => negb (satisfied scratchpad p)) params.

(** ** The interactive loop of [main] *)







(** ** Views of the state used by the properties *)

(** The fields no node and no step of the turn assigns. *)
Definition fixed_fields (st : RootAgentState)
  : string * string * string * option string * option string * option string :=
  (user_id st, user_role st, user_query st, error st,
   current_assignment_id st, current_topic st).

(** The four node names of the graph. *)
Definition node_names : list string :=
  ["assignment_review_agent"; "learning_path_agent";
   "question_generation_agent"; "faq_fallback_agent"].

(** The nodes the conditional edge of the graph maps each name to. *)
Definition graph_nodes
  : list (string * (Env -> RootAgentState -> M RootAgentState)) :=
  [ ("assignment_review_agent", assignment_review_node);
    ("learning_path_agent", learning_path_node);
    ("question_generation_agent", question_generation_node);
    ("faq_fallback_agent", faq_fallback_node) ].

(** The slots a handler's extraction can write. *)
Definition written_slots (h : handler) : list string :=
  match h with
  | Assignment => ["assignment_title"]
  | LearningPath => ["topic"; "skill_level"]
  | QuestionGeneration => ["topic"; "difficulty"; "question_count"]
  end.


(** A scratchpad transformer that only overwrites: each key of [K] is
    either given a value that does not depend on the scratchpad or left as
    it is, and every other key is left as it is. *)
Definition overwrites (K : list string)
    (F : gmap string value -> gmap string value) : Prop :=
  exists w : string -> option value,
    (forall k, ~ In k K -> w k = None)
    /\ forall m k,
         F m !! k = match w k with Some v => Some v | None => m !! k end.

(** ** Sample environments and sessions *)

(** Both capabilities are down. *)
Definition env_down : Env :=
  {| routing_chain := fun _ => Raise "routing chain unavailable";
     llm := fun _ => Raise "generation unavailable";
     now := fun _ => "2025-11-21T10:00:00" |}.

(** The routing chain answers [c] whatever it is asked; generation works. *)
Definition env_answering (c : string) : Env :=
  {| routing_chain := fun _ => Ok c;
     llm := fun _ => Ok "generated text";
     now := fun _ => "2025-11-21T10:00:00" |}.

(** A session in the middle of a conversation. *)
Definition session (user_role user_query : string)
    (awaiting : option string) (scratchpad : gmap string value)
  : RootAgentState :=
  set_scratchpad scratchpad
    (set_awaiting awaiting
       (set_user_query user_query (initial_state "user123" user_role))).

(** * Properties *)

(** ** Substring containment *)

Lemma prefix_app (n post : string) : String.prefix n (n +:+ post) = true.
Proof.
  induction n as [|c n IH]; simpl; [by destruct post|].
  destruct (Ascii.ascii_dec c c); [exact IH | congruence].
Qed.

Lemma prefix_inv (n h : string) :
  String.prefix n h = true -> exists post, h = n +:+ post.
Proof.
  revert h; induction n as [|c n IH]; intros h Hp.
  - by exists h.
  - destruct h as [|d h]; [discriminate|]. simpl in Hp.
    destruct (Ascii.ascii_dec c d) as [->|]; [|discriminate].
    destruct (IH _ Hp) as [post ->]. by exists post.
Qed.

Lemma contains_prefix (n h : string) :
  String.prefix n h = true -> Py.contains n h = true.
Proof. intros Hp. destruct h; cbn [Py.contains]; by rewrite Hp. Qed.

Lemma contains_app (n pre post : string) :
  Py.contains n (pre +:+ n +:+ post) = true.
Proof.
  induction pre as [|c pre IH].
  - change (EmptyString +:+ n +:+ post) with (n +:+ post).
    apply contains_prefix, prefix_app.
  - change (String c pre +:+ n +:+ post) with (String c (pre +:+ n +:+ post)).
    cbn [Py.contains]. rewrite IH. apply orb_true_r.
Qed.

Lemma contains_inv (n h : string) :
  Py.contains n h = true -> exists pre post, h = pre +:+ n +:+ post.
Proof.
  induction h as [|c h IH]; intros Hc.
  - cbn [Py.contains] in Hc. rewrite orb_false_r in Hc.
    destruct (prefix_inv _ _ Hc) as [post ->]. by exists EmptyString, post.
  - cbn [Py.contains] in Hc. apply orb_true_iff in Hc as [Hp|Hc].
    + destruct (prefix_inv _ _ Hp) as [post ->]. by exists EmptyString, post.
    + destruct (IH Hc) as (pre & post & ->). by exists (String c pre), post.
Qed.

(** [kw in hay] holds exactly when [hay] is [pre + kw + post] for some
    [pre] and [post]. *)
Lemma contains_iff (n h : string) :
  Py.contains n h = true <-> exists pre post, h = pre +:+ n +:+ post.
Proof.
  split; [apply contains_inv|]. intros (pre & post & ->). apply contains_app.
Qed.

Lemma any_in_iff (kws : list string) (h : string) :
  Py.any_in kws h = true <->
  exists kw pre post, In kw kws /\ h = pre +:+ kw +:+ post.
Proof.
  unfold Py.any_in. rewrite existsb_exists. split.
  - intros (kw & Hin & Hc). apply contains_inv in Hc as (pre & post & ->).
    by exists kw, pre, post.
  - intros (kw & pre & post & Hin & ->). exists kw. split; [done|].
    apply contains_app.
Qed.

Lemma mem_iff (x : string) (xs : list string) :
  Py.mem x xs = true <-> In x xs.
Proof.
  unfold Py.mem. rewrite existsb_exists. split.
  - intros (y & Hin & Heq). apply String.eqb_eq in Heq. by subst.
  - intros Hin. exists x. split; [done|]. apply String.eqb_refl.
Qed.

(** ** The router *)

(** Case analysis on the first string comparison of the goal. *)
Ltac case_eqb :=
  match goal with
  | |- context [String.eqb ?a ?b] =>
      destruct (String.eqb_spec a b) as [?|?]
  end.

Lemma route_abandoned env st h :
  current_agent_awaiting_parameters st = Some h ->
  RootAgentRouter.is_abandonment (RootAgentRouter.analyze_context st) = true ->
  RootAgentRouter.route env st = ([], Ok "faq_fallback_agent").
Proof.
  intros Hw Ha. unfold RootAgentRouter.route.
  rewrite Ha. simpl. by rewrite Hw.
Qed.

Lemma route_classified env st :
  RootAgentRouter.is_abandonment (RootAgentRouter.analyze_context st)
  && RootAgentRouter.has_awaiting_parameters
       (RootAgentRouter.analyze_context st) = false ->
  RootAgentRouter.route env st =
  ([Classify (RootAgentRouter.make_routing_input st)],
   match routing_chain env (RootAgentRouter.make_routing_input st) with
   | Ok raw =>
       Ok (RootAgentRouter.gate st
             (RootAgentRouter.resolve st (Py.strip raw)))
   | Raise e => Raise e
   end).
Proof.
  intros Hn. unfold RootAgentRouter.route. rewrite Hn.
  unfold invoke_routing_chain, bind, ret.
  by destruct (routing_chain env _).
Qed.

(** Only the four registered names pass the permission check. *)
Lemma check_role_permission_registered n r :
  RootAgentRouter.check_role_permission n r = true ->
  In n ["assignment_review_agent"; "learning_path_agent";
        "question_generation_agent"; "faq_fallback_agent"].
Proof.
  unfold RootAgentRouter.check_role_permission, AgentInfo.get_agent_info.
  cbn [AgentInfo.lookup_agent AgentInfo.AGENTS].
  repeat (case_eqb; [subst; simpl; tauto|]).
  discriminate.
Qed.

Lemma gate_cases st n :
  RootAgentRouter.gate st n = "faq_fallback_agent"
  \/ (RootAgentRouter.gate st n = n
      /\ RootAgentRouter.check_role_permission n (user_role st) = true).
Proof.
  unfold RootAgentRouter.gate.
  destruct (String.eqb_spec n "faq_fallback_agent") as [->|_]; simpl;
    [by left|].
  destruct (RootAgentRouter.check_role_permission n (user_role st)); simpl;
    [by right | by left].
Qed.

(** Whatever the routing chain does, [route] answers with one of the four
    registered names or propagates the chain's exception. *)
Lemma route_outcome env st :
  match outcome (RootAgentRouter.route env st) with
  | Ok n => In n ["assignment_review_agent"; "learning_path_agent";
                  "question_generation_agent"; "faq_fallback_agent"]
  | Raise e =>
      routing_chain env (RootAgentRouter.make_routing_input st) = Raise e
  end.
Proof.
  destruct (RootAgentRouter.is_abandonment (RootAgentRouter.analyze_context st)
            && RootAgentRouter.has_awaiting_parameters
                 (RootAgentRouter.analyze_context st)) eqn:Hab.
  - unfold RootAgentRouter.route. rewrite Hab. simpl. tauto.
  - rewrite route_classified by done. unfold outcome; simpl.
    destruct (routing_chain env _) as [raw|e]; [|done].
    destruct (gate_cases st (RootAgentRouter.resolve st (Py.strip raw)))
      as [->|[-> Hc]]; [simpl; tauto|].
    by apply check_role_permission_registered in Hc.
Qed.

(** The abandonment test is containment of a keyword, nothing more. *)
Lemma is_abandonment_iff st :
  RootAgentRouter.is_abandonment (RootAgentRouter.analyze_context st) = true
  <-> exists kw pre post,
        In kw RootAgentRouter.abandonment_keywords
        /\ Py.lower (user_query st) = pre +:+ kw +:+ post.
Proof. apply any_in_iff. Qed.

(** C10. Abandonment is detected by substring containment: whenever a
    handler is awaiting parameters and the lower-cased utterance has one of
    the five keywords anywhere inside it (also inside a longer word),
    [route] answers the fallback handler and makes no call at all, so the
    classifier is not consulted. *)
Theorem abandonment_by_substring env st h kw pre post :
  current_agent_awaiting_parameters st = Some h ->
  In kw ["never mind"; "cancel"; "forget it"; "stop"; "quit"] ->
  Py.lower (user_query st) = pre +:+ kw +:+ post ->
  RootAgentRouter.route env st = ([], Ok "faq_fallback_agent").
Proof.
  intros Hw Hkw Hq. eapply route_abandoned; [done|].
  cbn [RootAgentRouter.analyze_context RootAgentRouter.is_abandonment].
  apply any_in_iff. by exists kw, pre, post.
Qed.

Lemma abandonment_by_substring_witness :
  RootAgentRouter.route env_down
    (session "Consultant" "It is Unstoppable" (Some "learning_path_agent") ∅)
  = ([], Ok "faq_fallback_agent")
  /\ RootAgentRouter.route env_down
       (session "Admin" "quite hard ones" (Some "question_generation_agent") ∅)
     = ([], Ok "faq_fallback_agent").
Proof.
  split.
  - apply (abandonment_by_substring env_down _ "learning_path_agent"
             "stop" "it is un" "pable"); [reflexivity| simpl; tauto |reflexivity].
  - apply (abandonment_by_substring env_down _ "question_generation_agent"
             "quit" EmptyString "e hard ones");
      [reflexivity| simpl; tauto |reflexivity].
Defined.

Lemma gate_denied st n :
  n <> "faq_fallback_agent" ->
  RootAgentRouter.check_role_permission n (user_role st) = false ->
  RootAgentRouter.gate st n = "faq_fallback_agent".
Proof.
  intros Hn Hc. unfold RootAgentRouter.gate. rewrite Hc.
  by destruct (String.eqb_spec n "faq_fallback_agent").
Qed.

Lemma gate_permitted st n :
  RootAgentRouter.check_role_permission n (user_role st) = true ->
  RootAgentRouter.gate st n = n.
Proof.
  intros Hc. unfold RootAgentRouter.gate. rewrite Hc.
  by destruct (String.eqb n "faq_fallback_agent").
Qed.

(** The routing outcome, with the two paths of [route] side by side. *)
Lemma route_outcome_eq env st raw :
  routing_chain env (RootAgentRouter.make_routing_input st) = Ok raw ->
  outcome (RootAgentRouter.route env st) =
  Ok (if RootAgentRouter.is_abandonment (RootAgentRouter.analyze_context st)
         && RootAgentRouter.has_awaiting_parameters
              (RootAgentRouter.analyze_context st)
      then "faq_fallback_agent"
      else RootAgentRouter.gate st
             (RootAgentRouter.resolve st (Py.strip raw))).
Proof.
  intros Hraw.
  destruct (RootAgentRouter.is_abandonment _ && _) eqn:Hab.
  - unfold RootAgentRouter.route. by rewrite Hab.
  - rewrite route_classified by done. unfold outcome; simpl. by rewrite Hraw.
Qed.

(** An answer of [route] is the fallback handler or a permitted one. *)
Lemma route_answer_permitted env st n :
  outcome (RootAgentRouter.route env st) = Ok n ->
  n = "faq_fallback_agent"
  \/ RootAgentRouter.check_role_permission n (user_role st) = true.
Proof.
  destruct (RootAgentRouter.is_abandonment (RootAgentRouter.analyze_context st)
            && RootAgentRouter.has_awaiting_parameters
                 (RootAgentRouter.analyze_context st)) eqn:Hab.
  - unfold RootAgentRouter.route. rewrite Hab. intros [= <-]. by left.
  - rewrite route_classified by done. unfold outcome; simpl.
    destruct (routing_chain env _) as [raw|e]; [|discriminate].
    intros [= <-].
    destruct (gate_cases st (RootAgentRouter.resolve st (Py.strip raw)))
      as [->|[Hg Hc]]; [by left|]. rewrite Hg. by right.
Qed.

(** C2. Permission gate: for a handler [H] of the registry whose allowed
    roles do not hold the [All] sentinel (these are the assignment,
    learning-path and question-generation handlers) and a session whose
    role is not among them, [route] never answers [H], whatever the routing
    chain returns; when the resolution is [H] the answer is the fallback
    handler.  A handler whose allowed roles hold [All] is permitted for
    every role. *)
Theorem permission_gate env st H e :
  AgentInfo.get_agent_info H = Some e ->
  Py.mem "All" (AgentInfo.roles e) = false ->
  Py.mem (user_role st) (AgentInfo.roles e) = false ->
  In H ["assignment_review_agent"; "learning_path_agent";
        "question_generation_agent"]
  /\ outcome (RootAgentRouter.route env st) <> Ok H
  /\ (forall raw,
        routing_chain env (RootAgentRouter.make_routing_input st) = Ok raw ->
        RootAgentRouter.resolve st (Py.strip raw) = H ->
        outcome (RootAgentRouter.route env st) = Ok "faq_fallback_agent")
  /\ (forall H' e' R,
        AgentInfo.get_agent_info H' = Some e' ->
        Py.mem "All" (AgentInfo.roles e') = true ->
        RootAgentRouter.check_role_permission H' R = true).
Proof.
  intros He Hall Hrole.
  assert (Hden : RootAgentRouter.check_role_permission H (user_role st) = false).
  { unfold RootAgentRouter.check_role_permission. rewrite He.
    by rewrite Hall, Hrole. }
  assert (Hne : H <> "faq_fallback_agent").
  { intros ->. vm_compute in He. injection He as <-. discriminate Hall. }
  split; [|split; [|split]].
  - revert He Hall. unfold AgentInfo.get_agent_info.
    cbn [AgentInfo.lookup_agent AgentInfo.AGENTS].
    repeat (case_eqb; [subst; simpl; tauto|]).
    discriminate.
  - intros Hout. apply route_answer_permitted in Hout as [?|?]; congruence.
  - intros raw Hraw Hres. rewrite (route_outcome_eq _ _ _ Hraw).
    destruct (_ && _); [done|]. rewrite Hres. f_equal.
    by apply gate_denied.
  - intros H' e' R He' Hall'. unfold RootAgentRouter.check_role_permission.
    by rewrite He', Hall'.
Qed.

Lemma permission_gate_witness :
  outcome (RootAgentRouter.route (env_answering "question_generation_agent")
             (session "Consultant" "Generate 5 Python questions" None ∅))
  <> Ok "question_generation_agent".
Proof.
  destruct (AgentInfo.get_agent_info "question_generation_agent")
    as [e|] eqn:He; [|discriminate He].
  refine (proj1 (proj2 (permission_gate
            (env_answering "question_generation_agent")
            (session "Consultant" "Generate 5 Python questions" None ∅)
            "question_generation_agent" e He _ _)));
    injection He as <-; reflexivity.
Defined.

(** C6. When the routing chain returns [CONTINUE_CURRENT] and a handler is
    awaiting, the name resolves to the awaiting handler, which [route]
    answers when the role is permitted (the fallback otherwise, and on
    abandonment).  When it returns [CONTINUE_CURRENT] with nothing
    awaiting, or a name outside the registry, [route] answers the fallback
    handler; in no case does it raise. *)
Theorem continue_current_or_fallback env st raw :
  routing_chain env (RootAgentRouter.make_routing_input st) = Ok raw ->
  (forall h,
     current_agent_awaiting_parameters st = Some h ->
     h <> EmptyString ->
     Py.strip raw = "CONTINUE_CURRENT" ->
     RootAgentRouter.resolve st (Py.strip raw) = h
     /\ outcome (RootAgentRouter.route env st) =
        Ok (if RootAgentRouter.is_abandonment
                 (RootAgentRouter.analyze_context st)
            then "faq_fallback_agent"
            else if RootAgentRouter.check_role_permission h (user_role st)
            then h else "faq_fallback_agent"))
  /\ (Py.strip raw = "CONTINUE_CURRENT" ->
      truthy_str (current_agent_awaiting_parameters st) = false ->
      outcome (RootAgentRouter.route env st) = Ok "faq_fallback_agent")
  /\ (Py.strip raw <> "CONTINUE_CURRENT" ->
      AgentInfo.get_agent_info (Py.strip raw) = None ->
      outcome (RootAgentRouter.route env st) = Ok "faq_fallback_agent").
Proof.
  intros Hraw. rewrite (route_outcome_eq _ _ _ Hraw).
  split; [|split].
  - intros h Hw Hh Hcc.
    assert (Hres : RootAgentRouter.resolve st (Py.strip raw) = h).
    { unfold RootAgentRouter.resolve. rewrite Hcc, Hw. simpl.
      by destruct h. }
    split; [done|]. rewrite Hres.
    cbn [RootAgentRouter.analyze_context RootAgentRouter.is_abandonment
         RootAgentRouter.has_awaiting_parameters].
    rewrite Hw, andb_true_r.
    destruct (Py.any_in _ _); [done|]. f_equal.
    destruct (RootAgentRouter.check_role_permission h (user_role st)) eqn:Hc.
    + by apply gate_permitted.
    + unfold RootAgentRouter.gate. rewrite Hc.
      by destruct (String.eqb_spec h "faq_fallback_agent").
  - intros Hcc Hw. destruct (_ && _); [done|]. f_equal.
    unfold RootAgentRouter.resolve. rewrite Hcc, Hw. simpl.
    by apply gate_denied.
  - intros Hcc Hreg. destruct (_ && _); [done|]. f_equal.
    assert (Hres : RootAgentRouter.resolve st (Py.strip raw) = Py.strip raw).
    { unfold RootAgentRouter.resolve.
      by destruct (String.eqb_spec (Py.strip raw) "CONTINUE_CURRENT"). }
    rewrite Hres. apply gate_denied.
    + intros Heq. rewrite Heq in Hreg. discriminate Hreg.
    + unfold RootAgentRouter.check_role_permission. by rewrite Hreg.
Qed.

Lemma continue_current_or_fallback_witness :
  outcome (RootAgentRouter.route (env_answering "CONTINUE_CURRENT")
             (session "Consultant" "Python Basics"
                (Some "assignment_review_agent") ∅))
  = Ok "assignment_review_agent"
  /\ outcome (RootAgentRouter.route (env_answering "CONTINUE_CURRENT")
                (session "Consultant" "Python Basics" None ∅))
     = Ok "faq_fallback_agent"
  /\ outcome (RootAgentRouter.route (env_answering "billing_agent")
                (session "Consultant" "Python Basics" None ∅))
     = Ok "faq_fallback_agent".
Proof.
  split; [|split].
  - refine (proj2 (proj1 (continue_current_or_fallback
              (env_answering "CONTINUE_CURRENT")
              (session "Consultant" "Python Basics"
                 (Some "assignment_review_agent") ∅)
              "CONTINUE_CURRENT" eq_refl)
            "assignment_review_agent" eq_refl _ eq_refl)).
    discriminate.
  - exact (proj1 (proj2 (continue_current_or_fallback
             (env_answering "CONTINUE_CURRENT")
             (session "Consultant" "Python Basics" None ∅)
             "CONTINUE_CURRENT" eq_refl)) eq_refl eq_refl).
  - refine (proj2 (proj2 (continue_current_or_fallback
              (env_answering "billing_agent")
              (session "Consultant" "Python Basics" None ∅)
              "billing_agent" eq_refl)) _ eq_refl).
    discriminate.
Defined.

(** ** The fallback handler *)

Lemma search_db_in db q a :
  FAQFallbackAgent.search_db db q = Some a -> In a (map snd db).
Proof.
  induction db as [|[key answer] db IH]; simpl; [discriminate|].
  destruct (Py.any_in _ q); [intros [= <-]; by left | right; auto].
Qed.

Lemma faq_db_nonempty :
  forallb (fun a => negb (Py.is_empty a)) (map snd FAQFallbackAgent.faq_db)
  = true.
Proof. vm_compute. reflexivity. Qed.

(** Every answer of the FAQ table is a non-empty text. *)
Lemma search_faq_nonempty q a :
  FAQFallbackAgent.search_faq q = Some a -> Py.is_empty a = false.
Proof.
  unfold FAQFallbackAgent.search_faq. intros Hs.
  apply search_db_in in Hs.
  apply (proj1 (forallb_forall _ _) faq_db_nonempty) in Hs.
  apply negb_true_iff in Hs. exact Hs.
Qed.

(** The three tiers of [generate_response], one equation each. *)
Lemma faq_generate_response_tiers env st :
  FAQFallbackAgent.generate_response env st =
  if FAQFallbackAgent.handle_greeting (user_query st)
  then ([], Ok FAQFallbackAgent.greeting_text)
  else if FAQFallbackAgent.handle_thanks (user_query st)
  then ([], Ok FAQFallbackAgent.thanks_text)
  else match FAQFallbackAgent.search_faq (user_query st) with
       | Some a => ([], Ok a)
       | None =>
           ([Generate (FallbackPrompt (user_query st))],
            llm env (FallbackPrompt (user_query st)))
       end.
Proof.
  unfold FAQFallbackAgent.generate_response.
  destruct (FAQFallbackAgent.handle_greeting _); [done|].
  destruct (FAQFallbackAgent.handle_thanks _); [done|].
  destruct (FAQFallbackAgent.search_faq _) as [a|] eqn:Hs; simpl.
  - by rewrite (search_faq_nonempty _ _ Hs).
  - done.
Qed.

(** The fallback node raises only when its generation call does. *)
Lemma faq_fallback_node_outcome env st :
  match outcome (faq_fallback_node env st) with
  | Ok st' =>
      current_agent_awaiting_parameters st' = None
      /\ sub_agent_scratchpad st' = ∅
      /\ outcome (FAQFallbackAgent.generate_response env st)
         = Ok (system_response st')
      /\ error st' = error st
      /\ conversation_history st' = conversation_history st
      /\ current_agent st' = current_agent st
  | Raise e =>
      FAQFallbackAgent.handle_greeting (user_query st) = false
      /\ FAQFallbackAgent.handle_thanks (user_query st) = false
      /\ FAQFallbackAgent.search_faq (user_query st) = None
      /\ llm env (FallbackPrompt (user_query st)) = Raise e
  end.
Proof.
  unfold faq_fallback_node. rewrite faq_generate_response_tiers.
  destruct (FAQFallbackAgent.handle_greeting _); [by simpl|].
  destruct (FAQFallbackAgent.handle_thanks _); [by simpl|].
  destruct (FAQFallbackAgent.search_faq _); [by simpl|].
  unfold bind, outcome.
  destruct (llm env _) as [text|e]; by simpl.
Qed.

(** The table loop returns the answer of the first entry one of whose key
    words occurs in the utterance. *)
Lemma search_db_first_match pre key answer post q :
  Forall (fun entry => Py.any_in (Py.split (fst entry)) q = false) pre ->
  Py.any_in (Py.split key) q = true ->
  FAQFallbackAgent.search_db (pre ++ (key, answer) :: post) q = Some answer.
Proof.
  intros Hpre Hkey. induction Hpre as [|[k a] pre Hk _ IH].
  - cbn [app FAQFallbackAgent.search_db]. rewrite Hkey. reflexivity.
  - cbn [app FAQFallbackAgent.search_db fst] in *. rewrite Hk. exact IH.
Qed.

(** It finds nothing exactly when no key word of any entry occurs. *)
Lemma search_db_none db q :
  FAQFallbackAgent.search_db db q = None
  <-> Forall (fun entry => Py.any_in (Py.split (fst entry)) q = false) db.
Proof.
  induction db as [|[k a] db IH]; cbn [FAQFallbackAgent.search_db].
  - split; [constructor | reflexivity].
  - destruct (Py.any_in (Py.split k) q) eqn:Hk; split.
    + discriminate.
    + intros H. inversion H as [|? ? Hk' _]; subst. cbn [fst] in Hk'.
      rewrite Hk in Hk'. discriminate Hk'.
    + intros H. constructor; [exact Hk | apply IH; exact H].
    + intros H. inversion H; subst. apply IH. assumption.
Qed.

Lemma search_faq_none q :
  FAQFallbackAgent.search_faq q = None
  <-> Forall (fun entry =>
                Py.any_in (Py.split (fst entry)) (Py.lower q) = false)
        FAQFallbackAgent.faq_db.
Proof. unfold FAQFallbackAgent.search_faq. apply search_db_none. Qed.

Lemma faq_db_key_words :
  map (fun entry => Py.split (fst entry)) FAQFallbackAgent.faq_db
  = [ ["how"; "to"; "submit"; "assignment"];
      ["how"; "to"; "check"; "grades"];
      ["forgot"; "password"];
      ["portal"; "features"];
      ["contact"; "support"] ].
Proof. vm_compute. reflexivity. Qed.

(** C9. The fallback handler answers in three tiers.  First the two
    keyword sets, matched as substrings of the lower-cased utterance: one
    of "hello", "hi", "hey", "good morning", "good afternoon", "good
    evening" gives the greeting text; otherwise one of "thank", "thanks",
    "appreciate", "grateful" gives the thank-you text; both with an empty
    call log.  Then the FAQ table, whose five keys are split into words:
    the answer is that of the first entry one of whose key words occurs in
    the utterance, again without any call.  Only when no key word of any
    entry occurs is one generation call made, whose text is the answer.
    For every input the node ends with no awaiting handler and an empty
    scratchpad, its response being that answer; it raises only when that
    generation call raises. *)
Theorem faq_three_tier_cascade env st :
  let q := user_query st in
  let greeting :=
    Py.any_in ["hello"; "hi"; "hey"; "good morning"; "good afternoon";
               "good evening"] (Py.lower q) in
  let gratitude :=
    Py.any_in ["thank"; "thanks"; "appreciate"; "grateful"] (Py.lower q) in
  let no_entry_matches :=
    Forall (fun entry => Py.any_in (Py.split (fst entry)) (Py.lower q) = false)
  in
  map (fun entry => Py.split (fst entry)) FAQFallbackAgent.faq_db
  = [ ["how"; "to"; "submit"; "assignment"];
      ["how"; "to"; "check"; "grades"];
      ["forgot"; "password"];
      ["portal"; "features"];
      ["contact"; "support"] ]
  /\ (greeting = true ->
      FAQFallbackAgent.generate_response env st
      = ([], Ok FAQFallbackAgent.greeting_text))
  /\ (greeting = false ->
      gratitude = true ->
      FAQFallbackAgent.generate_response env st
      = ([], Ok FAQFallbackAgent.thanks_text))
  /\ (forall pre key answer post,
        greeting = false ->
        gratitude = false ->
        FAQFallbackAgent.faq_db = pre ++ (key, answer) :: post ->
        no_entry_matches pre ->
        Py.any_in (Py.split key) (Py.lower q) = true ->
        FAQFallbackAgent.generate_response env st = ([], Ok answer))
  /\ (greeting = false ->
      gratitude = false ->
      no_entry_matches FAQFallbackAgent.faq_db ->
      FAQFallbackAgent.generate_response env st
      = ([Generate (FallbackPrompt q)], llm env (FallbackPrompt q)))
  /\ match outcome (faq_fallback_node env st) with
     | Ok st' =>
         current_agent_awaiting_parameters st' = None
         /\ sub_agent_scratchpad st' = ∅
         /\ outcome (FAQFallbackAgent.generate_response env st)
            = Ok (system_response st')
     | Raise e =>
         greeting = false
         /\ gratitude = false
         /\ no_entry_matches FAQFallbackAgent.faq_db
         /\ llm env (FallbackPrompt q) = Raise e
     end.
Proof.
  intros q greeting gratitude no_entry_matches.
  assert (Hg : FAQFallbackAgent.handle_greeting q = greeting).
  { unfold FAQFallbackAgent.handle_greeting, FAQFallbackAgent.greetings.
    subst greeting. generalize (Py.any_in
      ["hello"; "hi"; "hey"; "good morning"; "good afternoon"; "good evening"]
      (Py.lower q)).
    intros []; reflexivity. }
  assert (Ht : FAQFallbackAgent.handle_thanks q = gratitude) by reflexivity.
  clearbody greeting gratitude. subst q no_entry_matches.
  rewrite faq_generate_response_tiers, Hg, Ht.
  split; [exact faq_db_key_words|].
  split; [intros ->; reflexivity|].
  split; [intros -> ->; reflexivity|].
  split; [|split].
  - intros pre key answer post -> -> Hdb Hpre Hkey.
    unfold FAQFallbackAgent.search_faq. rewrite Hdb.
    rewrite (search_db_first_match pre key answer post _ Hpre Hkey).
    reflexivity.
  - intros -> -> Hnone.
    rewrite (proj2 (search_faq_none _) Hnone). reflexivity.
  - pose proof (faq_fallback_node_outcome env st) as Hn.
    destruct (outcome (faq_fallback_node env st)) as [st'|e].
    + destruct Hn as (Ha & Hs & Hr & _).
      rewrite faq_generate_response_tiers, Hg, Ht in Hr.
      split; [exact Ha|]. split; [exact Hs | exact Hr].
    + destruct Hn as (Hg' & Ht' & Hs & Hl).
      rewrite Hg in Hg'. rewrite Ht in Ht'.
      split; [exact Hg'|]. split; [exact Ht'|].
      split; [|exact Hl].
      exact (proj1 (search_faq_none _) Hs).
Qed.

(** The four tiers on four utterances: a greeting, a thank-you, a question
    the table answers with its fourth entry, and one that reaches the
    generation call. *)
Lemma faq_three_tier_cascade_witness :
  let env := env_answering "faq_fallback_agent" in
  let turn q := session "Student" q None ∅ in
  FAQFallbackAgent.generate_response env (turn "Hi there")
  = ([], Ok FAQFallbackAgent.greeting_text)
  /\ FAQFallbackAgent.generate_response env (turn "Much appreciated")
     = ([], Ok FAQFallbackAgent.thanks_text)
  /\ FAQFallbackAgent.generate_response env
       (turn "What are the portal features?")
     = ([], Ok "The portal offers assignment tracking, grade viewing, learning path recommendations, and practice question generation (for admins). You can also view your performance insights.")
  /\ FAQFallbackAgent.generate_response env (turn "What are office hours?")
     = ([Generate (FallbackPrompt "What are office hours?")],
        Ok "generated text").
Proof.
  intros env turn.
  split; [|split; [|split]].
  - destruct (faq_three_tier_cascade env (turn "Hi there"))
      as (_ & Hgreet & _).
    apply Hgreet. vm_compute. reflexivity.
  - destruct (faq_three_tier_cascade env (turn "Much appreciated"))
      as (_ & _ & Hthanks & _).
    apply Hthanks; vm_compute; reflexivity.
  - destruct (faq_three_tier_cascade env
                (turn "What are the portal features?"))
      as (_ & _ & _ & Htable & _).
    apply (Htable (firstn 3 FAQFallbackAgent.faq_db) "portal features" _
             (skipn 4 FAQFallbackAgent.faq_db)).
    + vm_compute. reflexivity.
    + vm_compute. reflexivity.
    + reflexivity.
    + repeat (constructor; [vm_compute; reflexivity|]). constructor.
    + vm_compute. reflexivity.
  - destruct (faq_three_tier_cascade env (turn "What are office hours?"))
      as (_ & _ & _ & _ & Hllm & _).
    apply Hllm.
    + vm_compute. reflexivity.
    + vm_compute. reflexivity.
    + repeat (constructor; [vm_compute; reflexivity|]). constructor.
Defined.

(** ** Sequencing *)

Lemma outcome_bind {A B} (m : M A) (k : A -> M B) :
  outcome (bind m k) =
  match outcome m with Ok a => outcome (k a) | Raise e => Raise e end.
Proof.
  destruct m as [l [a|e]]; unfold bind, outcome; simpl; [|reflexivity].
  destruct (k a); reflexivity.
Qed.

Lemma calls_bind {A B} (m : M A) (k : A -> M B) :
  calls (bind m k) =
  calls m ++ match outcome m with Ok a => calls (k a) | Raise _ => [] end.
Proof.
  destruct m as [l [a|e]]; unfold bind, calls, outcome; simpl.
  - destruct (k a); reflexivity.
  - symmetry. apply app_nil_r.
Qed.

Lemma faq_fallback_node_calls env st :
  filter is_classify (calls (faq_fallback_node env st)) = [].
Proof.
  unfold faq_fallback_node. rewrite calls_bind, faq_generate_response_tiers.
  destruct (FAQFallbackAgent.handle_greeting _); [reflexivity|].
  destruct (FAQFallbackAgent.handle_thanks _); [reflexivity|].
  destruct (FAQFallbackAgent.search_faq _); [reflexivity|].
  unfold outcome, calls; simpl. destruct (llm env _); reflexivity.
Qed.

(** ** Abandonment *)

Lemma analyze_context_add_user_message env st :
  RootAgentRouter.is_abandonment
    (RootAgentRouter.analyze_context (add_user_message env st))
  = RootAgentRouter.is_abandonment (RootAgentRouter.analyze_context st).
Proof. reflexivity. Qed.

(** When [route] answers the fallback handler without a call, the graph
    is the fallback node run on the routed state. *)
Lemma graph_invoke_fallback env st :
  RootAgentRouter.route env st = ([], Ok "faq_fallback_agent") ->
  graph_invoke env st =
  faq_fallback_node env (set_current_agent (Some "faq_fallback_agent") st).
Proof.
  intros Hr. unfold graph_invoke, router_node. rewrite Hr.
  unfold bind at 2. unfold ret. cbn [app].
  unfold bind at 1.
  cbn [current_agent set_current_agent default String.eqb Ascii.eqb
       Bool.eqb].
  destruct (faq_fallback_node env _) as [l r]. reflexivity.
Qed.

(** C4. With a handler awaiting parameters and an utterance that matches
    an abandonment phrase, [route] answers the fallback handler with an
    empty call log, so the classifier is never invoked during the turn;
    the turn ends with no awaiting handler and an empty scratchpad, and it
    can only raise when the fallback handler's own generation call does. *)
Theorem abandonment_clears_collection env st h :
  current_agent_awaiting_parameters st = Some h ->
  RootAgentRouter.is_abandonment (RootAgentRouter.analyze_context st) = true ->
  RootAgentRouter.route env st = ([], Ok "faq_fallback_agent")
  /\ filter is_classify (calls (process_message env st)) = []
  /\ match outcome (process_message env st) with
     | Ok st' =>
         current_agent st' = Some "faq_fallback_agent"
         /\ current_agent_awaiting_parameters st' = None
         /\ sub_agent_scratchpad st' = ∅
     | Raise e => llm env (FallbackPrompt (user_query st)) = Raise e
     end.
Proof.
  intros Hw Ha.
  assert (Hr : RootAgentRouter.route env (add_user_message env st)
               = ([], Ok "faq_fallback_agent")).
  { apply (route_abandoned env _ h); [exact Hw | exact Ha]. }
  split; [apply (route_abandoned env st h Hw Ha)|].
  unfold process_message. rewrite (graph_invoke_fallback _ _ Hr).
  set (st1 := set_current_agent _ _).
  pose proof (faq_fallback_node_outcome env st1) as Hn.
  pose proof (faq_fallback_node_calls env st1) as Hc.
  rewrite calls_bind, outcome_bind.
  destruct (outcome (faq_fallback_node env st1)) as [st'|e].
  - destruct Hn as (Haw & Hsp & _ & _ & _ & Hag). split.
    + unfold ret, calls at 2. cbn [fst]. rewrite app_nil_r. exact Hc.
    + unfold ret, outcome. cbn [snd]. auto.
  - split; [rewrite app_nil_r; exact Hc|]. apply Hn.
Qed.

Lemma abandonment_clears_collection_witness :
  RootAgentRouter.route env_down
    (session "Consultant" "never mind" (Some "assignment_review_agent")
       {[ "assignment_title" := VStr "Python Basics" ]})
  = ([], Ok "faq_fallback_agent")
  /\ exists st',
       outcome (process_message (env_answering "CONTINUE_CURRENT")
                  (session "Consultant" "never mind"
                     (Some "assignment_review_agent")
                     {[ "assignment_title" := VStr "Python Basics" ]}))
       = Ok st'
       /\ current_agent_awaiting_parameters st' = None
       /\ sub_agent_scratchpad st' = ∅.
Proof.
  split.
  - exact (proj1 (abandonment_clears_collection env_down
             (session "Consultant" "never mind"
                (Some "assignment_review_agent")
                {[ "assignment_title" := VStr "Python Basics" ]})
             "assignment_review_agent" eq_refl eq_refl)).
  - pose proof (abandonment_clears_collection
                  (env_answering "CONTINUE_CURRENT")
                  (session "Consultant" "never mind"
                     (Some "assignment_review_agent")
                     {[ "assignment_title" := VStr "Python Basics" ]})
                  "assignment_review_agent" eq_refl eq_refl) as (_ & _ & T).
    destruct (outcome (process_message _ _)) as [st'|e].
    + exists st'. split; [reflexivity|]. apply T.
    + discriminate T.
Defined.

(** ** Extraction never removes a slot *)

(** The three ways through the question handler's extraction: a number
    that [int] refuses, a number that it converts, no number. *)
Ltac question_extract_cases :=
  unfold QuestionGenerationAgent.extract_parameters,
    QuestionGenerationAgent.extract_parameters_raises,
    QuestionGenerationAgent.extract_parameters_run in *;
  let number := fresh "number" in
  let Hlimit := fresh "Hlimit" in
  let Hnumber := fresh "Hnumber" in
  destruct (Py.first_number _) as [number|] eqn:Hnumber;
    [destruct (Py.int_raises number) eqn:Hlimit|];
  cbn [fst snd sub_agent_scratchpad set_scratchpad] in *.

Lemma insert_keeps (m : gmap string value) j v k :
  is_Some (m !! k) -> is_Some (<[j:=v]> m !! k).
Proof.
  intros Hk. destruct (decide (j = k)) as [->|Hne].
  - rewrite lookup_insert_eq. eauto.
  - rewrite lookup_insert_ne; assumption.
Qed.

Lemma scan_words_keeps words (m : gmap string value) k :
  is_Some (m !! k) ->
  is_Some (AssignmentReviewAgent.scan_words words m !! k).
Proof.
  revert m. induction words as [|w rest IH]; intros m Hk; [exact Hk|].
  cbn [AssignmentReviewAgent.scan_words]. apply IH.
  destruct (_ && _); [apply insert_keeps|]; exact Hk.
Qed.

Lemma learning_extract_topic_keeps topics q (m : gmap string value) k :
  is_Some (m !! k) ->
  is_Some (LearningPathAgent.extract_topic topics q m !! k).
Proof.
  intros Hk. induction topics as [|t rest IH]; [exact Hk|].
  cbn [LearningPathAgent.extract_topic].
  destruct (Py.contains t q); [|exact IH].
  destruct (String.eqb t "nlp"); repeat apply insert_keeps; exact Hk.
Qed.

Lemma question_extract_topic_keeps topics q (m : gmap string value) k :
  is_Some (m !! k) ->
  is_Some (QuestionGenerationAgent.extract_topic topics q m !! k).
Proof.
  intros Hk. induction topics as [|t rest IH]; [exact Hk|].
  cbn [QuestionGenerationAgent.extract_topic].
  destruct (Py.contains t q); [apply insert_keeps; exact Hk | exact IH].
Qed.

(** One extraction keeps every slot the scratchpad already holds. *)
Lemma extract_keeps h st k :
  is_Some (sub_agent_scratchpad st !! k) ->
  is_Some (sub_agent_scratchpad (extract_parameters_of h st) !! k).
Proof.
  intros Hk. destruct h; cbn [extract_parameters_of].
  - unfold AssignmentReviewAgent.extract_parameters.
    cbn [sub_agent_scratchpad set_scratchpad].
    destruct (_ && _); [apply insert_keeps; exact Hk|].
    destruct (Py.contains _ _); [apply scan_words_keeps|]; exact Hk.
  - unfold LearningPathAgent.extract_parameters.
    cbn [sub_agent_scratchpad set_scratchpad].
    pose proof (learning_extract_topic_keeps LearningPathAgent.topics
                  (Py.lower (user_query st)) _ k Hk) as Ht.
    repeat (match goal with
            | |- context [if ?b then _ else _] => destruct b
            end; [apply insert_keeps; exact Ht|]).
    exact Ht.
  - pose proof (question_extract_topic_keeps QuestionGenerationAgent.topics
                  (Py.lower (user_query st)) _ k Hk) as Ht.
    question_extract_cases; try apply insert_keeps;
      repeat (match goal with
              | |- context [if ?b then _ else _] => destruct b
              end; [apply insert_keeps; exact Ht|]);
      exact Ht.
Qed.

(** C7. For each handler's extraction, any starting scratchpad and any two
    utterances: a slot present after extracting the first utterance is
    still present after extracting the second one, whatever the second one
    holds.  Extraction only inserts, so the set of slots never shrinks. *)
Theorem extract_monotone h st u1 u2 k :
  let s1 := extract_parameters_of h (set_user_query u1 st) in
  let s2 := extract_parameters_of h (set_user_query u2 s1) in
  is_Some (sub_agent_scratchpad s1 !! k) ->
  is_Some (sub_agent_scratchpad s2 !! k)
  /\ dom (sub_agent_scratchpad st) ⊆ dom (sub_agent_scratchpad s1)
  /\ dom (sub_agent_scratchpad s1) ⊆ dom (sub_agent_scratchpad s2).
Proof.
  intros s1 s2 Hk. split; [|split].
  - apply (extract_keeps h (set_user_query u2 s1) k). exact Hk.
  - intros j Hj. apply elem_of_dom. apply elem_of_dom in Hj.
    apply (extract_keeps h (set_user_query u1 st) j). exact Hj.
  - intros j Hj. apply elem_of_dom. apply elem_of_dom in Hj.
    apply (extract_keeps h (set_user_query u2 s1) j). exact Hj.
Qed.

Lemma extract_monotone_witness :
  is_Some
    (sub_agent_scratchpad
       (extract_parameters_of LearningPath
          (set_user_query "I am a beginner"
             (extract_parameters_of LearningPath
                (set_user_query "I want to learn python"
                   (initial_state "user123" "Consultant")))))
     !! "topic").
Proof.
  refine (proj1 (extract_monotone LearningPath
            (initial_state "user123" "Consultant")
            "I want to learn python" "I am a beginner" "topic" _)).
  vm_compute. eauto.
Defined.

(** ** Validation *)

(** C3, as the specification words it, read at one handler: whenever fewer
    parameters of the registry list are satisfied than the list holds, the
    verdict is incomplete and [missing] is the unsatisfied names in registry
    order.  It does not hold at the assignment handler: with only the title
    collected, one of its two registry parameters is unsatisfied, yet the
    verdict is complete and [missing] is empty. *)
Lemma assignment_validate_counterexample :
  ~ (forall st,
       (length (List.filter (satisfied (sub_agent_scratchpad st))
                  (registry_parameters Assignment))
        < length (registry_parameters Assignment))%nat ->
       complete (fst (validate_parameters_of Assignment st)) = false
       /\ missing (fst (validate_parameters_of Assignment st))
          = unsatisfied (sub_agent_scratchpad st)
              (registry_parameters Assignment)).
Proof.
  intros Hclaim.
  specialize (Hclaim (session "Consultant" "Python Basics" None
                        {[ "assignment_title" := VStr "Python Basics" ]})).
  vm_compute in Hclaim. destruct Hclaim as [Hc _]; [lia|discriminate Hc].
Qed.

(** C3, amended.  The learning-path handler follows the registry list: its
    [missing] is always the unsatisfied names of [topic; skill_level] in
    that order, and the verdict is incomplete whenever fewer than both are
    satisfied.  The assignment handler asks for either of its two registry
    parameters: the verdict is complete exactly when [assignment_id] or
    [assignment_title] is satisfied, and otherwise [missing] is the single
    entry "assignment_id or assignment_title". *)
Theorem validate_missing_parameters st :
  (registry_parameters LearningPath = ["topic"; "skill_level"]
   /\ missing (LearningPathAgent.validate_parameters st)
      = unsatisfied (sub_agent_scratchpad st) (registry_parameters LearningPath)
   /\ ((length (List.filter (satisfied (sub_agent_scratchpad st))
                  (registry_parameters LearningPath))
        < length (registry_parameters LearningPath))%nat ->
       complete (LearningPathAgent.validate_parameters st) = false))
  /\ (registry_parameters Assignment = ["assignment_id"; "assignment_title"]
      /\ complete (AssignmentReviewAgent.validate_parameters st)
         = satisfied (sub_agent_scratchpad st) "assignment_id"
           || satisfied (sub_agent_scratchpad st) "assignment_title"
      /\ missing (AssignmentReviewAgent.validate_parameters st)
         = if complete (AssignmentReviewAgent.validate_parameters st)
           then []
           else ["assignment_id or assignment_title"]).
Proof.
  split.
  - split; [reflexivity|].
    change (registry_parameters LearningPath) with ["topic"; "skill_level"].
    unfold LearningPathAgent.validate_parameters, unsatisfied, satisfied.
    cbn [List.filter length].
    destruct (truthy_get (sub_agent_scratchpad st !! "topic"));
      destruct (truthy_get (sub_agent_scratchpad st !! "skill_level"));
      cbn; (split; [reflexivity|]); intros Hlt; first [reflexivity | lia].
  - split; [reflexivity|].
    unfold AssignmentReviewAgent.validate_parameters, satisfied.
    destruct (truthy_get (sub_agent_scratchpad st !! "assignment_id"));
      destruct (truthy_get (sub_agent_scratchpad st !! "assignment_title"));
      cbn; split; reflexivity.
Qed.

(** C8. The question-generation handler never reports [question_count] as
    missing: validation writes the default 5 into the scratchpad when the
    count is unset, and [missing] only ranges over [topic] and
    [difficulty].  For an Admin saying "Generate 5 Python questions",
    extraction yields topic [Python] and count 5, and the turn answers
    with the clarification that asks for the difficulty only. *)
Theorem question_count_defaults_to_five :
  (forall st,
     ~ In "question_count"
          (missing (fst (QuestionGenerationAgent.validate_parameters st)))
     /\ missing (fst (QuestionGenerationAgent.validate_parameters st))
        = unsatisfied (sub_agent_scratchpad st) ["topic"; "difficulty"]
     /\ sub_agent_scratchpad
          (snd (QuestionGenerationAgent.validate_parameters st))
        = (if truthy_get (sub_agent_scratchpad st !! "question_count")
           then sub_agent_scratchpad st
           else <["question_count" := VInt 5]> (sub_agent_scratchpad st))
     /\ truthy_get
          (sub_agent_scratchpad
             (snd (QuestionGenerationAgent.validate_parameters st))
           !! "question_count") = true)
  /\ (forall env uid,
        sub_agent_scratchpad
          (QuestionGenerationAgent.extract_parameters
             (set_user_query "Generate 5 Python questions"
                (initial_state uid "Admin")))
        = <["topic" := VStr "Python"]> (<["question_count" := VInt 5]> ∅)
        /\ missing
             (fst (QuestionGenerationAgent.validate_parameters
                     (QuestionGenerationAgent.extract_parameters
                        (set_user_query "Generate 5 Python questions"
                           (initial_state uid "Admin")))))
           = ["difficulty"]
        /\ outcome
             (bind (question_generation_node env
                      (set_user_query "Generate 5 Python questions"
                         (initial_state uid "Admin")))
                   (fun st' =>
                      ret (system_response st',
                           current_agent_awaiting_parameters st')))
           = Ok ("To generate questions, I need:" +:+ Py.nl
                 +:+ "- What difficulty level? (Easy/Medium/Hard)",
                 Some "question_generation_agent"))
  /\ outcome
       (bind (process_message (env_answering "question_generation_agent")
                (set_user_query "Generate 5 Python questions"
                   (initial_state "user123" "Admin")))
             (fun st' =>
                ret (system_response st', current_agent st',
                     current_agent_awaiting_parameters st')))
     = Ok ("To generate questions, I need:" +:+ Py.nl
           +:+ "- What difficulty level? (Easy/Medium/Hard)",
           Some "question_generation_agent",
           Some "question_generation_agent").
Proof.
  split; [|split].
  - intros st.
    unfold QuestionGenerationAgent.validate_parameters, unsatisfied, satisfied.
    cbn [List.filter].
    destruct (truthy_get (sub_agent_scratchpad st !! "topic"));
      destruct (truthy_get (sub_agent_scratchpad st !! "difficulty"));
      destruct (truthy_get (sub_agent_scratchpad st !! "question_count"))
        eqn:Hq;
      cbn [negb app Py.nonempty fst snd missing sub_agent_scratchpad
           set_scratchpad];
      (split; [cbn; intuition discriminate|]);
      (split; [reflexivity|]); (split; [reflexivity|]);
      first [exact Hq | rewrite lookup_insert_eq; reflexivity].
  - intros env uid. split; [|split]; vm_compute; reflexivity.
  - vm_compute. reflexivity.
Qed.

(** ** The structure of extraction *)

Lemma ow_id K : overwrites K (fun m => m).
Proof. exists (fun _ => None). split; intros; reflexivity. Qed.

Lemma ow_insert_after K F k v :
  In k K -> overwrites K F -> overwrites K (fun m => <[k:=v]> (F m)).
Proof.
  intros Hk (w & Hw & HF).
  exists (fun j => if String.eqb k j then Some v else w j). split.
  - intros j Hj. destruct (String.eqb_spec k j) as [->|_]; [tauto|].
    apply Hw, Hj.
  - intros m j. destruct (String.eqb_spec k j) as [->|Hne].
    + apply lookup_insert_eq.
    + rewrite lookup_insert_ne by exact Hne. apply HF.
Qed.

Lemma ow_comp K F G :
  overwrites K F -> overwrites K G -> overwrites K (fun m => G (F m)).
Proof.
  intros (w1 & Hw1 & HF) (w2 & Hw2 & HG).
  exists (fun j => match w2 j with Some v => Some v | None => w1 j end).
  split.
  - intros j Hj. rewrite (Hw2 j Hj). apply Hw1, Hj.
  - intros m j. rewrite HG, HF. destruct (w2 j); reflexivity.
Qed.

Lemma ow_if K (b : bool) F G :
  overwrites K F -> overwrites K G ->
  overwrites K (fun m => if b then F m else G m).
Proof. intros HF HG. destruct b; assumption. Qed.

(** Applying an overwriting transformer twice is applying it once. *)
Lemma ow_idempotent K F m : overwrites K F -> F (F m) = F m.
Proof.
  intros (w & _ & HF). apply map_eq. intros k. rewrite !HF.
  destruct (w k); reflexivity.
Qed.

Lemma scan_words_ow words :
  overwrites ["assignment_title"] (AssignmentReviewAgent.scan_words words).
Proof.
  induction words as [|w rest IH].
  - apply ow_id.
  - apply (ow_comp _
             (fun m =>
                if Py.mem (Py.lower w) ["assignment"; "task"; "homework"]
                   && Py.nonempty rest
                then <["assignment_title" :=
                         VStr (Py.join " " (take 2 rest))]> m
                else m)
             (AssignmentReviewAgent.scan_words rest)); [|exact IH].
    apply ow_if; [|apply ow_id].
    apply (ow_insert_after _ (fun m => m)); [cbn; tauto | apply ow_id].
Qed.

Lemma learning_extract_topic_ow topics q :
  overwrites ["topic"; "skill_level"]
    (LearningPathAgent.extract_topic topics q).
Proof.
  induction topics as [|t rest IH].
  - apply ow_id.
  - cbn [LearningPathAgent.extract_topic].
    destruct (Py.contains t q); [|exact IH].
    destruct (String.eqb t "nlp").
    + apply (ow_insert_after _ (fun m => <["topic" := _]> m));
        [cbn; tauto|].
      apply (ow_insert_after _ (fun m => m)); [cbn; tauto | apply ow_id].
    + apply (ow_insert_after _ (fun m => m)); [cbn; tauto | apply ow_id].
Qed.

Lemma question_extract_topic_ow topics q :
  overwrites ["topic"; "difficulty"; "question_count"]
    (QuestionGenerationAgent.extract_topic topics q).
Proof.
  induction topics as [|t rest IH].
  - apply ow_id.
  - cbn [QuestionGenerationAgent.extract_topic].
    destruct (Py.contains t q); [|exact IH].
    apply (ow_insert_after _ (fun m => m)); [cbn; tauto | apply ow_id].
Qed.

(** One step through a chain of conditional insertions. *)
Ltac ow_step :=
  lazymatch goal with
  | |- overwrites _ (fun m => if ?b then _ else _) => destruct b
  | |- overwrites ?K (fun m => <[?k := ?v]> (@?F m)) =>
      apply (ow_insert_after K F k v); [cbn; tauto|]
  end.

(** Extraction, seen as a function of the scratchpad alone. *)
Lemma extract_overwrites h st :
  overwrites (written_slots h)
    (fun m =>
       sub_agent_scratchpad (extract_parameters_of h (set_scratchpad m st))).
Proof.
  destruct h; cbn [extract_parameters_of written_slots].
  - unfold AssignmentReviewAgent.extract_parameters.
    cbn [sub_agent_scratchpad set_scratchpad user_query].
    apply ow_if.
    + apply (ow_insert_after _ (fun m => m)); [cbn; tauto | apply ow_id].
    + apply ow_if; [apply scan_words_ow | apply ow_id].
  - unfold LearningPathAgent.extract_parameters.
    cbn [sub_agent_scratchpad set_scratchpad user_query].
    pose proof (learning_extract_topic_ow LearningPathAgent.topics
                  (Py.lower (user_query st))) as Ht.
    repeat ow_step; exact Ht.
  - unfold QuestionGenerationAgent.extract_parameters,
      QuestionGenerationAgent.extract_parameters_run.
    cbn [sub_agent_scratchpad set_scratchpad user_query].
    pose proof (question_extract_topic_ow QuestionGenerationAgent.topics
                  (Py.lower (user_query st))) as Ht.
    assert (Hd : overwrites ["topic"; "difficulty"; "question_count"]
              (fun m =>
                 let scratchpad :=
                   QuestionGenerationAgent.extract_topic
                     QuestionGenerationAgent.topics
                     (Py.lower (user_query st)) m in
                 if Py.contains "easy" (Py.lower (user_query st))
                    || Py.contains "beginner" (Py.lower (user_query st))
                 then <["difficulty" := VStr "Easy"]> scratchpad
                 else if Py.contains "medium" (Py.lower (user_query st))
                         || Py.contains "intermediate"
                              (Py.lower (user_query st))
                 then <["difficulty" := VStr "Medium"]> scratchpad
                 else if Py.contains "hard" (Py.lower (user_query st))
                         || Py.contains "advanced" (Py.lower (user_query st))
                         || Py.contains "difficult"
                              (Py.lower (user_query st))
                 then <["difficulty" := VStr "Hard"]> scratchpad
                 else scratchpad)).
    { cbv zeta. repeat ow_step; exact Ht. }
    destruct (Py.first_number _) as [number|];
      [destruct (Py.int_raises number)|];
      cbn [fst sub_agent_scratchpad set_scratchpad].
    + exact Hd.
    + ow_step. exact Hd.
    + exact Hd.
Qed.

Lemma set_scratchpad_same st : set_scratchpad (sub_agent_scratchpad st) st = st.
Proof. destruct st; reflexivity. Qed.

(** ** The turn of a parameter-collecting handler *)

Lemma insert_dom_keeps (m : gmap string value) j v :
  dom m ⊆ dom (<[j:=v]> m).
Proof.
  intros k Hk. apply elem_of_dom. apply elem_of_dom in Hk.
  apply insert_keeps. exact Hk.
Qed.

(** What the three nodes have in common, once the question-generation
    node's own role check has passed. *)
Lemma node_of_unfold h env st :
  (h = QuestionGeneration -> QuestionGenerationAgent.check_permissions st = true) ->
  extract_raises_of h st = None ->
  node_of h env st =
  let extracted := extract_parameters_of h st in
  let v := fst (validate_parameters_of h extracted) in
  let validated := snd (validate_parameters_of h extracted) in
  if negb (complete v)
  then ret (set_awaiting (Some (handler_id h))
              (set_system_response (default EmptyString (clarification v))
                 validated))
  else bind (generate_response_of h env validated)
         (fun response =>
            ret (set_scratchpad ∅
                   (set_awaiting None
                      (set_system_response response validated)))).
Proof.
  intros Hperm Hret. destruct h; cbn [node_of]; try reflexivity.
  unfold question_generation_node. rewrite (Hperm eq_refl).
  cbn [negb extract_parameters_of validate_parameters_of handler_id
       generate_response_of extract_raises_of] in Hret |- *.
  unfold QuestionGenerationAgent.extract_parameters_raises,
    QuestionGenerationAgent.extract_parameters in *.
  destruct (QuestionGenerationAgent.extract_parameters_run st) as [st1 o].
  cbn [fst snd] in Hret |- *. subst o.
  destruct (QuestionGenerationAgent.validate_parameters _) as [v st'].
  reflexivity.
Qed.

(** The question node raises what its extraction raises. *)
Lemma node_of_extract_raises h env st e :
  (h = QuestionGeneration -> QuestionGenerationAgent.check_permissions st = true) ->
  extract_raises_of h st = Some e ->
  h = QuestionGeneration /\ node_of h env st = ([], Raise e).
Proof.
  intros Hperm Hraise. destruct h; try discriminate Hraise.
  split; [reflexivity|]. cbn [node_of extract_raises_of] in *.
  unfold question_generation_node. rewrite (Hperm eq_refl). cbn [negb].
  unfold QuestionGenerationAgent.extract_parameters_raises in Hraise.
  destruct (QuestionGenerationAgent.extract_parameters_run st) as [st1 o].
  cbn [snd] in Hraise. subst o. reflexivity.
Qed.

(** An incomplete verdict always carries its clarification text. *)
Lemma incomplete_has_clarification h st :
  complete (fst (validate_parameters_of h st)) = false ->
  exists text, clarification (fst (validate_parameters_of h st)) = Some text.
Proof.
  destruct h; cbn [validate_parameters_of fst].
  - unfold AssignmentReviewAgent.validate_parameters.
    destruct (negb _); cbn; [eauto | discriminate].
  - unfold LearningPathAgent.validate_parameters.
    destruct (Py.nonempty _); cbn; [eauto | discriminate].
  - unfold QuestionGenerationAgent.validate_parameters.
    destruct (Py.nonempty _); cbn; [eauto | discriminate].
Qed.

(** Validation keeps every slot, and the value of every slot that passes
    the truth test. *)
Lemma validate_keeps_slots h st :
  dom (sub_agent_scratchpad st)
  ⊆ dom (sub_agent_scratchpad (snd (validate_parameters_of h st)))
  /\ forall k x,
       sub_agent_scratchpad st !! k = Some x -> truthy x = true ->
       sub_agent_scratchpad (snd (validate_parameters_of h st)) !! k = Some x.
Proof.
  destruct h; cbn [validate_parameters_of snd]; [split; auto..|].
  unfold QuestionGenerationAgent.validate_parameters.
  set (sp := sub_agent_scratchpad st).
  assert (Hsp : forall b v1 v2 (s : RootAgentState),
             sub_agent_scratchpad
               (snd (if b : bool then (v1, s) else (v2 : validation, s)))
             = sub_agent_scratchpad s) by (by intros []).
  rewrite Hsp. cbn [sub_agent_scratchpad set_scratchpad].
  destruct (truthy_get (sp !! "question_count")) eqn:Hq; cbn [negb].
  - split; auto.
  - split; [apply insert_dom_keeps|].
    intros k x Hk Hx. destruct (decide ("question_count" = k)) as [<-|Hne].
    + rewrite Hk in Hq. cbn in Hq. congruence.
    + rewrite lookup_insert_ne; assumption.
Qed.

(** The graph, when [route] answers one of the three handlers: the router
    node's state goes to that handler's node. *)
Lemma graph_invoke_routed env st h :
  outcome (RootAgentRouter.route env st) = Ok (handler_id h) ->
  graph_invoke env st =
  bind (calls (RootAgentRouter.route env st),
        Ok (set_current_agent (Some (handler_id h)) st))
       (node_of h env).
Proof.
  intros Hr. unfold graph_invoke, router_node.
  destruct (RootAgentRouter.route env st) as [l r].
  unfold outcome in Hr; cbn [snd] in Hr. subst r. cbn [calls fst].
  unfold bind at 2. unfold ret. rewrite app_nil_r.
  destruct h; reflexivity.
Qed.

(** A handler that [route] answers is permitted for the session's role;
    for the question-generation handler this is the node's own check. *)
Lemma routed_question_generation_is_admin env st :
  outcome (RootAgentRouter.route env st) = Ok "question_generation_agent" ->
  QuestionGenerationAgent.check_permissions st = true.
Proof.
  intros Hr. apply route_answer_permitted in Hr as [Hr|Hr];
    [discriminate Hr|].
  unfold RootAgentRouter.check_role_permission in Hr. cbn in Hr.
  unfold QuestionGenerationAgent.check_permissions.
  rewrite orb_false_r in Hr. exact Hr.
Qed.

(** [route] makes no generation call. *)
Lemma route_outcome_calls env st :
  filter is_generate (calls (RootAgentRouter.route env st)) = [].
Proof.
  unfold RootAgentRouter.route.
  destruct (_ && _); [reflexivity|].
  unfold invoke_routing_chain, bind, ret.
  destruct (routing_chain env _); reflexivity.
Qed.

(** Validation writes nothing outside the handler's own slots. *)
Lemma validate_writes_own_slots h st k :
  ~ In k (written_slots h) ->
  sub_agent_scratchpad (snd (validate_parameters_of h st)) !! k
  = sub_agent_scratchpad st !! k.
Proof.
  intros Hk. destruct h; cbn [validate_parameters_of snd]; try reflexivity.
  unfold QuestionGenerationAgent.validate_parameters.
  assert (Hsp : forall b v1 v2 (s : RootAgentState),
             sub_agent_scratchpad
               (snd (if b : bool then (v1, s) else (v2 : validation, s)))
             = sub_agent_scratchpad s) by (by intros []).
  rewrite Hsp. cbn [sub_agent_scratchpad set_scratchpad].
  destruct (negb _); [|reflexivity].
  apply lookup_insert_ne. intros <-. apply Hk. cbn. tauto.
Qed.

(** C5. A turn that the router hands to one of the three
    parameter-collecting handlers, and whose extraction returns, so that
    validation is reached.  If validation is incomplete, the turn answers
    with the clarification text, the handler's id is recorded as awaiting,
    and the scratchpad keeps its collected slots: every slot the session
    held before the turn is still there, unchanged when it is not one of
    the handler's own, and every slot that extraction left is there, with
    its value when the value passes the truth test; no generation call is
    made.  If validation is complete, the answer is the text of
    [generate_response], no handler is awaiting and the scratchpad is
    empty; the turn raises exactly when [generate_response] does.  When
    the extraction raises instead (the question handler's [int] on a digit
    run beyond the limit), validation is not reached and the turn raises
    that exception. *)
Theorem turn_outcome env st h :
  outcome (RootAgentRouter.route env (add_user_message env st))
  = Ok (handler_id h) ->
  let routed :=
    set_current_agent (Some (handler_id h)) (add_user_message env st) in
  let extracted := extract_parameters_of h routed in
  let v := fst (validate_parameters_of h extracted) in
  let validated := snd (validate_parameters_of h extracted) in
  (extract_raises_of h routed = None ->
   (complete v = false ->
    exists st',
      outcome (process_message env st) = Ok st'
      /\ Some (system_response st') = clarification v
      /\ current_agent_awaiting_parameters st' = Some (handler_id h)
      /\ sub_agent_scratchpad st' = sub_agent_scratchpad validated
      /\ dom (sub_agent_scratchpad st) ⊆ dom (sub_agent_scratchpad st')
      /\ (forall k,
            ~ In k (written_slots h) ->
            sub_agent_scratchpad st' !! k = sub_agent_scratchpad st !! k)
      /\ dom (sub_agent_scratchpad extracted) ⊆ dom (sub_agent_scratchpad st')
      /\ (forall k x,
            sub_agent_scratchpad extracted !! k = Some x ->
            truthy x = true ->
            sub_agent_scratchpad st' !! k = Some x)
      /\ filter is_generate (calls (process_message env st)) = [])
   /\ (complete v = true ->
       match outcome (generate_response_of h env validated) with
       | Ok text =>
           exists st',
             outcome (process_message env st) = Ok st'
             /\ system_response st' = text
             /\ current_agent_awaiting_parameters st' = None
             /\ sub_agent_scratchpad st' = ∅
       | Raise e => outcome (process_message env st) = Raise e
       end))
  /\ (forall e,
        extract_raises_of h routed = Some e ->
        h = QuestionGeneration
        /\ outcome (process_message env st) = Raise e
        /\ filter is_generate (calls (process_message env st)) = []).
Proof.
  intros Hr routed extracted v validated.
  assert (Hperm : h = QuestionGeneration ->
                  QuestionGenerationAgent.check_permissions routed = true).
  { intros ->.
    apply (routed_question_generation_is_admin env (add_user_message env st)).
    exact Hr. }
  unfold process_message. rewrite (graph_invoke_routed _ _ _ Hr).
  fold routed. rewrite !calls_bind, !outcome_bind.
  cbn [outcome calls fst snd].
  split.
  - intros Hret.
    assert (Hnode : node_of h env routed =
                    if negb (complete v)
                    then ret (set_awaiting (Some (handler_id h))
                                (set_system_response
                                   (default EmptyString (clarification v))
                                   validated))
                    else bind (generate_response_of h env validated)
                           (fun response =>
                              ret (set_scratchpad ∅
                                     (set_awaiting None
                                        (set_system_response response
                                           validated))))).
    { apply node_of_unfold; assumption. }
    rewrite Hnode.
    split; intros Hv; rewrite Hv; cbn [negb].
    + destruct (incomplete_has_clarification h extracted Hv) as [text Htext].
      fold v in Htext. rewrite Htext.
      destruct (validate_keeps_slots h extracted) as [Hdom Hval].
      eexists. split; [reflexivity|].
      cbn [system_response current_agent_awaiting_parameters
           sub_agent_scratchpad set_conversation_history set_awaiting
           set_system_response default ret snd fst].
      split; [reflexivity|]. split; [reflexivity|]. split; [reflexivity|].
      split.
      { intros k Hk. apply Hdom. apply elem_of_dom. apply elem_of_dom in Hk.
        apply (extract_keeps h routed k). exact Hk. }
      split.
      { intros k Hk. fold validated.
        unfold validated. rewrite (validate_writes_own_slots h extracted k Hk).
        destruct (extract_overwrites h routed) as (w & Hw & HF).
        specialize (HF (sub_agent_scratchpad routed) k).
        rewrite set_scratchpad_same in HF. fold extracted in HF.
        rewrite HF, (Hw k Hk). reflexivity. }
      split; [exact Hdom|]. split; [exact Hval|].
      rewrite !app_nil_r.
      exact (route_outcome_calls env (add_user_message env st)).
    + rewrite outcome_bind.
      destruct (outcome (generate_response_of h env validated)) as [text|e];
        [|reflexivity].
      eexists. split; [reflexivity|].
      cbn [system_response current_agent_awaiting_parameters
           sub_agent_scratchpad set_conversation_history set_awaiting
           set_system_response set_scratchpad].
      repeat split; reflexivity.
  - intros e Hraise.
    destruct (node_of_extract_raises h env routed e Hperm Hraise)
      as [Hh Hnode].
    split; [exact Hh|]. rewrite Hnode. cbn [outcome calls fst snd].
    split; [reflexivity|]. rewrite !app_nil_r.
    exact (route_outcome_calls env (add_user_message env st)).
Qed.

Lemma turn_outcome_witness :
  exists st',
    outcome (process_message (env_answering "CONTINUE_CURRENT")
               (session "Consultant" "not sure yet"
                  (Some "learning_path_agent")
                  {[ "topic" := VStr "Python" ]})) = Ok st'
    /\ system_response st'
       = "To recommend the best learning resources for you, I need:"
         +:+ Py.nl
         +:+ "- What is your current skill level? (Beginner/Intermediate/Advanced)"
    /\ current_agent_awaiting_parameters st' = Some "learning_path_agent"
    /\ sub_agent_scratchpad st' = {[ "topic" := VStr "Python" ]}.
Proof.
  pose proof (turn_outcome (env_answering "CONTINUE_CURRENT")
                (session "Consultant" "not sure yet"
                   (Some "learning_path_agent")
                   {[ "topic" := VStr "Python" ]})
                LearningPath) as T.
  destruct T as [T _]; [vm_compute; reflexivity|].
  destruct T as [T _]; [reflexivity|].
  destruct T as (st' & Ho & Hresp & Haw & Hsp & _); [vm_compute; reflexivity|].
  exists st'. split; [exact Ho|]. split; [|split; [exact Haw|]].
  - vm_compute in Hresp. injection Hresp as Hresp.
    vm_compute. exact Hresp.
  - vm_compute in Hsp. vm_compute. exact Hsp.
Defined.

(** ** Failure of an external capability *)

(** A node raises only when a generation call raises, or when the question
    handler's extraction does. *)
Lemma node_raise_cause env st agent e :
  In agent [assignment_review_node; learning_path_node;
            question_generation_node; faq_fallback_node] ->
  outcome (agent env st) = Raise e ->
  (exists req, llm env req = Raise e)
  \/ QuestionGenerationAgent.extract_parameters_raises st = Some e.
Proof.
  intros Hin Hr. cbn [In] in Hin.
  destruct Hin as [<-|[<-|[<-|[<-|[]]]]].
  - left. unfold assignment_review_node in Hr.
    destruct (negb _); [discriminate Hr|].
    rewrite outcome_bind in Hr.
    unfold AssignmentReviewAgent.generate_response, invoke_llm, outcome in Hr.
    cbn [snd] in Hr.
    destruct (llm env _) as [t|e'] eqn:Hl; [discriminate Hr|].
    injection Hr as <-. eauto.
  - left. unfold learning_path_node in Hr.
    destruct (negb _); [discriminate Hr|].
    rewrite outcome_bind in Hr.
    unfold LearningPathAgent.generate_response, invoke_llm, outcome in Hr.
    cbn [snd] in Hr.
    destruct (llm env _) as [t|e'] eqn:Hl; [discriminate Hr|].
    injection Hr as <-. eauto.
  - unfold question_generation_node in Hr.
    destruct (negb _); [discriminate Hr|].
    unfold QuestionGenerationAgent.extract_parameters_raises.
    destruct (QuestionGenerationAgent.extract_parameters_run st)
      as [st1 [e1|]]; cbn [snd].
    + right. unfold outcome in Hr. cbn [snd] in Hr. congruence.
    + left.
      destruct (QuestionGenerationAgent.validate_parameters _) as [v st'].
      destruct (negb _); [discriminate Hr|].
      rewrite outcome_bind in Hr.
      unfold QuestionGenerationAgent.generate_response in Hr.
      rewrite outcome_bind in Hr.
      unfold QuestionGenerationAgent.generate_questions, invoke_llm, outcome
        in Hr.
      cbn [snd] in Hr.
      destruct (llm env _) as [t|e'] eqn:Hl; [discriminate Hr|].
      injection Hr as <-. eauto.
  - left. pose proof (faq_fallback_node_outcome env st) as Hn.
    rewrite Hr in Hn. destruct Hn as (_ & _ & _ & Hl). eauto.
Qed.

(** Whether the question handler's extraction raises depends on the
    utterance alone. *)
Lemma extract_raises_same_query st st' :
  user_query st = user_query st' ->
  QuestionGenerationAgent.extract_parameters_raises st
  = QuestionGenerationAgent.extract_parameters_raises st'.
Proof.
  intros Hq. unfold QuestionGenerationAgent.extract_parameters_raises,
    QuestionGenerationAgent.extract_parameters_run.
  rewrite Hq. destruct (Py.first_number _) as [number|]; [|reflexivity].
  destruct (Py.int_raises number); reflexivity.
Qed.

(** The graph raises only when one of the two capabilities raises, or when
    the question handler's extraction does. *)
Lemma graph_invoke_raise_cause env st e :
  outcome (graph_invoke env st) = Raise e ->
  routing_chain env (RootAgentRouter.make_routing_input st) = Raise e
  \/ (exists req, llm env req = Raise e)
  \/ QuestionGenerationAgent.extract_parameters_raises st = Some e.
Proof.
  intros Hr. pose proof (route_outcome env st) as Ho.
  unfold graph_invoke, router_node in Hr.
  rewrite !outcome_bind in Hr.
  destruct (outcome (RootAgentRouter.route env st)) as [n|e0].
  - right. cbn [outcome ret snd current_agent set_current_agent default] in Hr.
    cbn [In] in Ho. destruct Ho as [<-|[<-|[<-|[<-|[]]]]];
      cbn [String.eqb Ascii.eqb Bool.eqb] in Hr;
      eapply node_raise_cause in Hr; try (cbn [In]; tauto);
      (destruct Hr as [Hr|Hr]; [left; exact Hr|right]);
      rewrite <- Hr; apply extract_raises_same_query; reflexivity.
  - left. injection Hr as <-. exact Ho.
Qed.

Lemma process_message_raise_cause env st e :
  outcome (process_message env st) = Raise e ->
  routing_chain env
    (RootAgentRouter.make_routing_input (add_user_message env st)) = Raise e
  \/ (exists req, llm env req = Raise e)
  \/ QuestionGenerationAgent.extract_parameters_raises st = Some e.
Proof.
  unfold process_message. rewrite outcome_bind. intros Hr.
  rewrite (extract_raises_same_query st (add_user_message env st))
    by reflexivity.
  apply (graph_invoke_raise_cause env (add_user_message env st)).
  destruct (outcome (graph_invoke env (add_user_message env st)));
    [discriminate Hr | exact Hr].
Qed.

(** ** What a raising turn leaves in place *)











(** * Further properties of the turn *)

(** ** The shape of a node's result *)

Lemma extract_only_scratchpad h st :
  extract_parameters_of h st
  = set_scratchpad (sub_agent_scratchpad (extract_parameters_of h st)) st.
Proof.
  destruct h; try reflexivity. cbn [extract_parameters_of].
  question_extract_cases; reflexivity.
Qed.

Lemma validate_only_scratchpad h st :
  snd (validate_parameters_of h st)
  = set_scratchpad (sub_agent_scratchpad (snd (validate_parameters_of h st)))
      st.
Proof.
  destruct h; cbn [validate_parameters_of snd]; try (destruct st; reflexivity).
  unfold QuestionGenerationAgent.validate_parameters.
  destruct (Py.nonempty _); reflexivity.
Qed.

(** A generation chain makes exactly one call. *)
Lemma generate_response_calls h env st :
  exists req,
    calls (generate_response_of h env st) = [Generate req]
    /\ match outcome (generate_response_of h env st) with
       | Ok _ => exists text, llm env req = Ok text
       | Raise e => llm env req = Raise e
       end.
Proof.
  destruct h; cbn [generate_response_of].
  - unfold AssignmentReviewAgent.generate_response, invoke_llm.
    eexists. split; [reflexivity|]. unfold outcome; cbn [snd].
    destruct (llm env _); eauto.
  - unfold LearningPathAgent.generate_response, invoke_llm.
    eexists. split; [reflexivity|]. unfold outcome; cbn [snd].
    destruct (llm env _); eauto.
  - unfold QuestionGenerationAgent.generate_response,
      QuestionGenerationAgent.generate_questions, invoke_llm.
    eexists. rewrite calls_bind, outcome_bind. unfold outcome, calls.
    cbn [fst snd]. destruct (llm env _) eqn:Hl; cbn [ret fst snd app].
    + split; [reflexivity|]. rewrite Hl. eauto.
    + split; [reflexivity|]. exact Hl.
Qed.

(** Either the question-generation node's own role check fails, or the
    node runs its extract, validate, respond pipeline. *)
Lemma permission_cases h st :
  (h = QuestionGeneration
   /\ QuestionGenerationAgent.check_permissions st = false)
  \/ (h = QuestionGeneration ->
      QuestionGenerationAgent.check_permissions st = true).
Proof.
  destruct h; try (right; discriminate).
  destruct (QuestionGenerationAgent.check_permissions st);
    [right; reflexivity | left; split; reflexivity].
Qed.

(** What a parameter-collecting node returns: either it asked for more
    (its id is awaiting, every slot it was handed is still there, no
    generation call), or it is done (nothing awaiting, scratchpad empty). *)
Lemma node_of_shape h env st st' :
  outcome (node_of h env st) = Ok st' ->
  fixed_fields st' = fixed_fields st
  /\ conversation_history st' = conversation_history st
  /\ current_agent st' = current_agent st
  /\ ((current_agent_awaiting_parameters st' = None
       /\ sub_agent_scratchpad st' = ∅)
      \/ (current_agent_awaiting_parameters st' = Some (handler_id h)
          /\ dom (sub_agent_scratchpad st) ⊆ dom (sub_agent_scratchpad st')
          /\ calls (node_of h env st) = [])).
Proof.
  intros Hok.
  destruct (permission_cases h st) as [[-> Hden]|Hp].
  - cbn [node_of] in Hok. unfold question_generation_node in Hok.
    rewrite Hden in Hok. cbn [negb] in Hok.
    unfold outcome, ret in Hok. cbn [snd] in Hok. injection Hok as <-.
    repeat split; try reflexivity. left. split; reflexivity.
  - destruct (extract_raises_of h st) as [e|] eqn:Hraise.
    { destruct (node_of_extract_raises h env st e Hp Hraise) as [_ Hn].
      rewrite Hn in Hok. discriminate Hok. }
    rewrite (node_of_unfold h env st Hp Hraise) in Hok |- *.
    cbv zeta in Hok |- *.
    set (extracted := extract_parameters_of h st) in *.
    pose proof (validate_keeps_slots h extracted) as [Hdom _].
    pose proof (validate_only_scratchpad h extracted) as Hv.
    pose proof (extract_only_scratchpad h st) as He. fold extracted in He.
    set (validated := snd (validate_parameters_of h extracted)) in *.
    assert (Hfix : fixed_fields validated = fixed_fields st
                   /\ conversation_history validated = conversation_history st
                   /\ current_agent validated = current_agent st).
    { rewrite Hv, He. repeat split; reflexivity. }
    assert (Hsub : dom (sub_agent_scratchpad st)
                   ⊆ dom (sub_agent_scratchpad validated)).
    { intros k Hk. apply Hdom. apply elem_of_dom. apply elem_of_dom in Hk.
      apply (extract_keeps h st k Hk). }
    destruct Hfix as (Hf1 & Hf2 & Hf3).
    destruct (negb (complete _)).
    + unfold outcome, ret in Hok. cbn [snd] in Hok. injection Hok as <-.
      split; [exact Hf1|]. split; [exact Hf2|]. split; [exact Hf3|].
      right. split; [reflexivity|]. split; [exact Hsub|reflexivity].
    + rewrite outcome_bind in Hok.
      destruct (outcome (generate_response_of h env validated));
        [|discriminate Hok].
      unfold outcome, ret in Hok. cbn [snd] in Hok. injection Hok as <-.
      split; [exact Hf1|]. split; [exact Hf2|]. split; [exact Hf3|].
      left. split; reflexivity.
Qed.

(** The calls of a parameter-collecting node: none, or one generation. *)
Lemma node_of_calls h env st :
  calls (node_of h env st) = []
  \/ exists req, calls (node_of h env st) = [Generate req].
Proof.
  destruct (permission_cases h st) as [[-> Hden]|Hp].
  - left. cbn [node_of]. unfold question_generation_node.
    rewrite Hden. reflexivity.
  - destruct (extract_raises_of h st) as [e|] eqn:Hraise.
    { destruct (node_of_extract_raises h env st e Hp Hraise) as [_ Hn].
      rewrite Hn. left. reflexivity. }
    rewrite (node_of_unfold h env st Hp Hraise). cbv zeta.
    destruct (negb (complete _)); [left; reflexivity|].
    right. rewrite calls_bind.
    destruct (generate_response_calls h env
                (snd (validate_parameters_of h (extract_parameters_of h st))))
      as (req & Hc & _).
    exists req. rewrite Hc.
    destruct (outcome _); reflexivity.
Qed.

Lemma faq_fallback_node_shape env st st' :
  outcome (faq_fallback_node env st) = Ok st' ->
  fixed_fields st' = fixed_fields st
  /\ conversation_history st' = conversation_history st
  /\ current_agent st' = current_agent st
  /\ current_agent_awaiting_parameters st' = None
  /\ sub_agent_scratchpad st' = ∅.
Proof.
  unfold faq_fallback_node. rewrite outcome_bind.
  destruct (outcome (FAQFallbackAgent.generate_response env st));
    [|discriminate].
  unfold outcome, ret; cbn [snd]. intros [= <-].
  repeat split; reflexivity.
Qed.

(** The graph, after the router has answered [n]: the node that the edge
    map gives for [n] runs on the state with [current_agent] set. *)
Lemma graph_invoke_dispatch env st n :
  outcome (RootAgentRouter.route env st) = Ok n ->
  (exists h,
     n = handler_id h
     /\ graph_invoke env st =
        bind (calls (RootAgentRouter.route env st),
              Ok (set_current_agent (Some n) st))
             (node_of h env))
  \/ (n = "faq_fallback_agent"
      /\ graph_invoke env st =
         bind (calls (RootAgentRouter.route env st),
               Ok (set_current_agent (Some n) st))
              (faq_fallback_node env)).
Proof.
  intros Hr. pose proof (route_outcome env st) as Hin. rewrite Hr in Hin.
  cbn [In] in Hin. destruct Hin as [<-|[<-|[<-|[<-|[]]]]].
  - left. exists Assignment. split; [reflexivity|].
    apply (graph_invoke_routed env st Assignment Hr).
  - left. exists LearningPath. split; [reflexivity|].
    apply (graph_invoke_routed env st LearningPath Hr).
  - left. exists QuestionGeneration. split; [reflexivity|].
    apply (graph_invoke_routed env st QuestionGeneration Hr).
  - right. split; [reflexivity|].
    unfold graph_invoke, router_node.
    destruct (RootAgentRouter.route env st) as [l r].
    unfold outcome in Hr; cbn [snd] in Hr. subst r. cbn [calls fst].
    unfold bind at 2. unfold ret. rewrite app_nil_r. reflexivity.
Qed.

(** The scratchpad written in place agrees with the state the graph
    returns: after a turn that ends with a handler awaiting, the caller's
    scratchpad dict holds exactly the scratchpad of the returned state. *)
Lemma graph_in_place_agrees env st st' :
  outcome (graph_invoke env st) = Ok st' ->
  current_agent_awaiting_parameters st' <> None ->
  sub_agent_scratchpad st' = graph_in_place env st.
Proof.
  intros Ho Haw.
  destruct (outcome (RootAgentRouter.route env st)) as [n|e] eqn:Hr.
  2:{ unfold graph_invoke, router_node in Ho.
      rewrite !outcome_bind, Hr in Ho. discriminate Ho. }
  destruct (graph_invoke_dispatch env st n Hr) as [(h & -> & Hg)|[-> Hg]].
  - rewrite Hg, outcome_bind in Ho. cbn [outcome snd] in Ho.
    assert (Hperm : h = QuestionGeneration ->
              QuestionGenerationAgent.check_permissions
                (set_current_agent (Some (handler_id h)) st) = true).
    { intros ->. apply (routed_question_generation_is_admin env st Hr). }
    assert (Hip : graph_in_place env st =
              match h with
              | Assignment =>
                  assignment_review_in_place
                    (set_current_agent (Some (handler_id h)) st)
              | LearningPath =>
                  learning_path_in_place
                    (set_current_agent (Some (handler_id h)) st)
              | QuestionGeneration =>
                  question_generation_in_place
                    (set_current_agent (Some (handler_id h)) st)
              end).
    { unfold graph_in_place, router_node. rewrite outcome_bind, Hr.
      destruct h; reflexivity. }
    rewrite Hip.
    destruct (extract_raises_of h (set_current_agent (Some (handler_id h)) st))
      as [e|] eqn:Hx.
    + destruct (node_of_extract_raises h env _ e Hperm Hx) as [_ Hn].
      fold (outcome (node_of h env
                       (set_current_agent (Some (handler_id h)) st))) in Ho.
      rewrite Hn in Ho. discriminate Ho.
    + fold (outcome (node_of h env
                       (set_current_agent (Some (handler_id h)) st))) in Ho.
      rewrite (node_of_unfold h env _ Hperm Hx) in Ho. cbv zeta in Ho.
      destruct (complete _) eqn:Hc; cbn [negb] in Ho.
      * rewrite outcome_bind in Ho.
        destruct (outcome (generate_response_of h env _)); [|discriminate Ho].
        unfold outcome, ret in Ho. cbn [snd] in Ho. injection Ho as <-.
        exfalso. apply Haw. reflexivity.
      * unfold outcome, ret in Ho. cbn [snd] in Ho. injection Ho as <-.
        cbn [sub_agent_scratchpad set_awaiting set_system_response].
        destruct h; cbn [validate_parameters_of extract_parameters_of
                         extract_raises_of] in Hx |- *.
        -- unfold assignment_review_in_place,
             AssignmentReviewAgent.validate_parameters.
           destruct (negb _); reflexivity.
        -- unfold learning_path_in_place,
             LearningPathAgent.validate_parameters.
           destruct (Py.nonempty _); reflexivity.
        -- unfold question_generation_in_place.
           rewrite (Hperm eq_refl). cbn [negb].
           unfold QuestionGenerationAgent.extract_parameters,
             QuestionGenerationAgent.extract_parameters_raises in *.
           destruct (QuestionGenerationAgent.extract_parameters_run _)
             as [st1 o].
           cbn [fst snd] in Hx |- *. subst o. reflexivity.
  - rewrite Hg, outcome_bind in Ho. cbn [outcome snd] in Ho.
    pose proof (faq_fallback_node_outcome env
                  (set_current_agent (Some "faq_fallback_agent") st)) as Hn.
    fold (outcome (faq_fallback_node env
                     (set_current_agent (Some "faq_fallback_agent") st))) in Ho.
    rewrite Ho in Hn. destruct Hn as [Ha _]. contradiction.
Qed.

Lemma handler_id_not_fallback h : handler_id h <> "faq_fallback_agent".
Proof. destruct h; discriminate. Qed.

Lemma handler_id_registered h : In (handler_id h) node_names.
Proof. destruct h; cbn; tauto. Qed.

(** The shape of a turn that returns: who handled it, what was appended
    to the history, and in which of the two collection states it ends. *)
Lemma turn_shape env st st' :
  outcome (process_message env st) = Ok st' ->
  exists n,
    outcome (RootAgentRouter.route env (add_user_message env st)) = Ok n
    /\ In n node_names
    /\ current_agent st' = Some n
    /\ fixed_fields st' = fixed_fields st
    /\ conversation_history st' =
       conversation_history st ++
       [ {| role := "user"; content := user_query st;
            timestamp := Some (now env (length (conversation_history st))) |};
         {| role := "assistant"; content := system_response st';
            timestamp :=
              Some (now env (S (length (conversation_history st)))) |} ]
    /\ ((current_agent_awaiting_parameters st' = None
         /\ sub_agent_scratchpad st' = ∅)
        \/ (current_agent_awaiting_parameters st' = Some n
            /\ n <> "faq_fallback_agent"
            /\ dom (sub_agent_scratchpad st) ⊆ dom (sub_agent_scratchpad st')
            /\ filter is_generate (calls (process_message env st)) = [])).
Proof.
  unfold process_message. rewrite outcome_bind, calls_bind.
  set (st0 := add_user_message env st).
  destruct (outcome (graph_invoke env st0)) as [r|e] eqn:Hg; [|discriminate].
  unfold outcome at 1, ret; cbn [snd]. intros [= <-].
  pose proof (route_outcome env st0) as Hin.
  destruct (outcome (RootAgentRouter.route env st0)) as [n|e] eqn:Hr.
  2:{ exfalso. unfold graph_invoke, router_node in Hg.
      rewrite !outcome_bind, Hr in Hg. discriminate Hg. }
  exists n. split; [reflexivity|]. split; [exact Hin|].
  set (routed := set_current_agent (Some n) st0).
  assert (Hshape :
    fixed_fields r = fixed_fields routed
    /\ conversation_history r = conversation_history routed
    /\ current_agent r = current_agent routed
    /\ ((current_agent_awaiting_parameters r = None
         /\ sub_agent_scratchpad r = ∅)
        \/ (current_agent_awaiting_parameters r = Some n
            /\ n <> "faq_fallback_agent"
            /\ dom (sub_agent_scratchpad routed) ⊆ dom (sub_agent_scratchpad r)
            /\ filter is_generate (calls (graph_invoke env st0)) = []))).
  { destruct (graph_invoke_dispatch env st0 n Hr) as [(h & -> & Hgi)|[-> Hgi]].
    - rewrite Hgi in Hg |- *. rewrite outcome_bind in Hg.
      cbn [outcome snd] in Hg. fold routed in Hg.
      destruct (node_of_shape h env routed r Hg) as (H1 & H2 & H3 & H4).
      split; [exact H1|]. split; [exact H2|]. split; [exact H3|].
      destruct H4 as [H4|(Ha & Hd & Hc)]; [left; exact H4|].
      right. split; [exact Ha|]. split; [apply handler_id_not_fallback|].
      split; [exact Hd|].
      rewrite calls_bind. cbn [calls fst outcome snd]. fold routed.
      rewrite Hc, app_nil_r. apply route_outcome_calls.
    - rewrite Hgi in Hg. rewrite outcome_bind in Hg.
      cbn [outcome snd] in Hg. fold routed in Hg.
      destruct (faq_fallback_node_shape env routed r Hg)
        as (H1 & H2 & H3 & H4 & H5).
      split; [exact H1|]. split; [exact H2|]. split; [exact H3|].
      left. split; [exact H4 | exact H5]. }
  destruct Hshape as (H1 & H2 & H3 & H4).
  cbn [current_agent set_conversation_history fixed_fields user_id user_role
       user_query error current_assignment_id current_topic
       conversation_history system_response
       current_agent_awaiting_parameters sub_agent_scratchpad].
  split; [exact H3|]. split; [exact H1|]. split.
  { rewrite H2. cbn [routed st0 conversation_history set_current_agent
                     add_user_message set_conversation_history].
    rewrite <- app_assoc. cbn [app]. rewrite length_app. cbn [length].
    rewrite Nat.add_1_r. reflexivity. }
  destruct H4 as [H4|(Ha & Hn & Hd & Hc)]; [left; exact H4|].
  right. split; [exact Ha|]. split; [exact Hn|]. split; [exact Hd|].
  cbn [calls ret fst]. rewrite app_nil_r. exact Hc.
Qed.

(** ** What every returning turn guarantees *)

(** X1. A turn that returns appends exactly two entries to the history,
    after everything already there: the user's utterance, then the
    assistant's answer, which is the turn's [system_response]. *)
Theorem turn_appends_two_messages env st st' :
  outcome (process_message env st) = Ok st' ->
  conversation_history st' =
  conversation_history st ++
  [ {| role := "user"; content := user_query st;
       timestamp := Some (now env (length (conversation_history st))) |};
    {| role := "assistant"; content := system_response st';
       timestamp := Some (now env (S (length (conversation_history st)))) |} ].
Proof.
  intros Hok. destruct (turn_shape env st st' Hok) as (n & _ & _ & _ & _ & H & _).
  exact H.
Qed.

Lemma turn_appends_two_messages_witness :
  exists st',
    outcome (process_message (env_answering "faq_fallback_agent")
               (session "SME" "Hello!" None ∅)) = Ok st'
    /\ conversation_history st' =
       [ {| role := "user"; content := "Hello!";
            timestamp := Some "2025-11-21T10:00:00" |};
         {| role := "assistant"; content := system_response st';
            timestamp := Some "2025-11-21T10:00:00" |} ].
Proof.
  destruct (outcome (process_message (env_answering "faq_fallback_agent")
                       (session "SME" "Hello!" None ∅)))
    as [st'|e] eqn:Ho; [|vm_compute in Ho; discriminate Ho].
  exists st'. split; [reflexivity|].
  exact (turn_appends_two_messages _ _ st' Ho).
Defined.

(** X2. A turn that returns leaves the identity, the role, the utterance,
    the error field and the two per-agent context fields as they were: no
    node assigns any of them. *)
Theorem turn_keeps_fixed_fields env st st' :
  outcome (process_message env st) = Ok st' ->
  user_id st' = user_id st
  /\ user_role st' = user_role st
  /\ user_query st' = user_query st
  /\ error st' = error st
  /\ current_assignment_id st' = current_assignment_id st
  /\ current_topic st' = current_topic st.
Proof.
  intros Hok. destruct (turn_shape env st st' Hok) as (n & _ & _ & _ & H & _).
  unfold fixed_fields in H. injection H as H1 H2 H3 H4 H5 H6.
  repeat split; assumption.
Qed.

Lemma turn_keeps_fixed_fields_witness :
  exists st',
    outcome (process_message (env_answering "learning_path_agent")
               (session "Consultant" "I want to learn python" None ∅))
    = Ok st'
    /\ user_role st' = "Consultant"
    /\ error st' = None.
Proof.
  destruct (outcome (process_message (env_answering "learning_path_agent")
                       (session "Consultant" "I want to learn python" None ∅)))
    as [st'|e] eqn:Ho; [|vm_compute in Ho; discriminate Ho].
  exists st'. split; [reflexivity|].
  destruct (turn_keeps_fixed_fields _ _ st' Ho) as (_ & H2 & _ & H4 & _).
  split; [exact H2 | exact H4].
Defined.

(** When the question handler's extraction raises, the utterance holds a
    digit run that [int] refuses. *)
Lemma extract_raises_inv st e :
  QuestionGenerationAgent.extract_parameters_raises st = Some e ->
  exists d,
    Py.first_number (Py.lower (user_query st)) = Some d
    /\ Py.int_raises d = true
    /\ e = Py.int_error d.
Proof.
  unfold QuestionGenerationAgent.extract_parameters_raises,
    QuestionGenerationAgent.extract_parameters_run.
  destruct (Py.first_number _) as [d|]; [|discriminate].
  destruct (Py.int_raises d) eqn:Hl; [|discriminate].
  cbn [snd]. intros [= <-]. exists d. repeat split; assumption.
Qed.

(** X3. A turn fails only for a reason outside the state machine: when
    neither the routing chain nor the generation chain raises, and the
    first run of digits of the utterance (if it has one) is within the
    limit of [int] (4300 digits), [process_message] returns a state. *)
Theorem turn_returns_when_capabilities_answer env st :
  (forall inp e, routing_chain env inp <> Raise e) ->
  (forall req e, llm env req <> Raise e) ->
  (forall d, Py.first_number (Py.lower (user_query st)) = Some d ->
             Py.int_raises d = false) ->
  exists st', outcome (process_message env st) = Ok st'.
Proof.
  intros Hrc Hllm Hint.
  destruct (outcome (process_message env st)) as [st'|e] eqn:Ho;
    [exists st'; reflexivity|].
  exfalso.
  destruct (process_message_raise_cause env st e Ho) as [H|[[req H]|H]].
  - exact (Hrc _ _ H).
  - exact (Hllm _ _ H).
  - destruct (extract_raises_inv st e H) as (d & Hd & Hl & _).
    rewrite (Hint d Hd) in Hl. discriminate Hl.
Qed.

Lemma turn_returns_when_capabilities_answer_witness :
  exists st',
    outcome (process_message (env_answering "question_generation_agent")
               (session "Admin" "10 hard sql questions" None ∅)) = Ok st'.
Proof.
  apply (turn_returns_when_capabilities_answer
           (env_answering "question_generation_agent")).
  - intros; discriminate.
  - intros; discriminate.
  - intros d Hd. vm_compute in Hd. injection Hd as <-. reflexivity.
Defined.

(** X4. After a turn that returns, [current_agent] is one of the four node
    names; if no handler is awaiting the scratchpad is empty; and a handler
    that is awaiting is the one that just ran and is one of the three
    parameter-collecting handlers, never the fallback. *)
Theorem turn_ends_in_a_collection_state env st st' :
  outcome (process_message env st) = Ok st' ->
  (exists n, current_agent st' = Some n /\ In n node_names)
  /\ (current_agent_awaiting_parameters st' = None ->
      sub_agent_scratchpad st' = ∅)
  /\ (forall h,
        current_agent_awaiting_parameters st' = Some h ->
        current_agent st' = Some h
        /\ In h ["assignment_review_agent"; "learning_path_agent";
                 "question_generation_agent"]).
Proof.
  intros Hok.
  destruct (turn_shape env st st' Hok) as (n & _ & Hin & Hca & _ & _ & Hcol).
  split; [exists n; split; assumption|].
  destruct Hcol as [[Ha Hs]|(Ha & Hn & _)].
  - split; [intros _; exact Hs|]. intros h Hh. congruence.
  - split; [intros Hnone; congruence|].
    intros h Hh. rewrite Ha in Hh. injection Hh as <-.
    split; [exact Hca|].
    cbn [In node_names] in Hin |- *.
    destruct Hin as [H|[H|[H|[H|[]]]]]; try tauto. congruence.
Qed.

Lemma turn_ends_in_a_collection_state_witness :
  exists st',
    outcome (process_message (env_answering "learning_path_agent")
               (session "Consultant" "I want to learn python" None ∅))
    = Ok st'
    /\ current_agent_awaiting_parameters st' = Some "learning_path_agent"
    /\ current_agent st' = Some "learning_path_agent".
Proof.
  destruct (outcome (process_message (env_answering "learning_path_agent")
                       (session "Consultant" "I want to learn python" None ∅)))
    as [st'|e] eqn:Ho; [|vm_compute in Ho; discriminate Ho].
  exists st'. split; [reflexivity|].
  destruct (turn_ends_in_a_collection_state _ _ st' Ho) as (_ & _ & H).
  assert (Haw : current_agent_awaiting_parameters st'
                = Some "learning_path_agent").
  { vm_compute in Ho. injection Ho as <-. reflexivity. }
  split; [exact Haw|]. exact (proj1 (H _ Haw)).
Defined.

(** X5. A turn that ends with a handler awaiting has dropped no slot: every
    slot the session held before the turn is still in the scratchpad, even
    when the turn was handled by another handler than the one that had been
    awaiting; and such a turn made no generation call. *)
Theorem clarification_turn_keeps_slots env st st' h :
  outcome (process_message env st) = Ok st' ->
  current_agent_awaiting_parameters st' = Some h ->
  dom (sub_agent_scratchpad st) ⊆ dom (sub_agent_scratchpad st')
  /\ filter is_generate (calls (process_message env st)) = [].
Proof.
  intros Hok Hh.
  destruct (turn_shape env st st' Hok) as (n & _ & _ & _ & _ & _ & Hcol).
  destruct Hcol as [[Ha _]|(_ & _ & Hd & Hc)]; [congruence|].
  split; assumption.
Qed.

Lemma clarification_turn_keeps_slots_witness :
  exists st',
    outcome (process_message (env_answering "assignment_review_agent")
               (session "Consultant" "what about my grades"
                  (Some "learning_path_agent")
                  {[ "topic" := VStr "Python" ]})) = Ok st'
    /\ current_agent_awaiting_parameters st' = Some "assignment_review_agent"
    /\ dom ({[ "topic" := VStr "Python" ]} : gmap string value)
       ⊆ dom (sub_agent_scratchpad st').
Proof.
  destruct (outcome (process_message (env_answering "assignment_review_agent")
                       (session "Consultant" "what about my grades"
                          (Some "learning_path_agent")
                          {[ "topic" := VStr "Python" ]})))
    as [st'|e] eqn:Ho; [|vm_compute in Ho; discriminate Ho].
  exists st'. split; [reflexivity|].
  assert (Haw : current_agent_awaiting_parameters st'
                = Some "assignment_review_agent").
  { vm_compute in Ho. injection Ho as <-. reflexivity. }
  split; [exact Haw|].
  exact (proj1 (clarification_turn_keeps_slots _ _ st' _ Ho Haw)).
Defined.

(** ** Who may handle a turn *)

(** X6. An answer of [route] other than the fallback handler goes with
    the session's role: the assignment and learning-path handlers only for
    a Consultant, the question-generation handler only for an Admin.  Any
    other role (an SME, say) is always handed to the fallback handler,
    whatever the routing chain returns. *)
Theorem route_confines_roles env st n :
  outcome (RootAgentRouter.route env st) = Ok n ->
  n = "faq_fallback_agent"
  \/ (user_role st = "Consultant"
      /\ (n = "assignment_review_agent" \/ n = "learning_path_agent"))
  \/ (user_role st = "Admin" /\ n = "question_generation_agent").
Proof.
  intros Hr. apply route_answer_permitted in Hr as [Hr|Hc]; [left; exact Hr|].
  pose proof (check_role_permission_registered _ _ Hc) as Hin.
  cbn [In] in Hin. destruct Hin as [<-|[<-|[<-|[<-|[]]]]];
    [| | |left; reflexivity];
    right; unfold RootAgentRouter.check_role_permission in Hc;
    cbn in Hc; rewrite orb_false_r in Hc; apply String.eqb_eq in Hc.
  - left. split; [exact Hc | left; reflexivity].
  - left. split; [exact Hc | right; reflexivity].
  - right. split; [exact Hc | reflexivity].
Qed.

Lemma route_confines_roles_witness :
  "learning_path_agent" = "faq_fallback_agent"
  \/ (user_role (session "Consultant" "teach me sql" None ∅) = "Consultant"
      /\ ("learning_path_agent" = "assignment_review_agent"
          \/ "learning_path_agent" = "learning_path_agent"))
  \/ (user_role (session "Consultant" "teach me sql" None ∅) = "Admin"
      /\ "learning_path_agent" = "question_generation_agent").
Proof.
  apply (route_confines_roles (env_answering "learning_path_agent")
           (session "Consultant" "teach me sql" None ∅)).
  vm_compute. reflexivity.
Defined.

(** ** What a turn costs *)

Lemma route_calls_shape env st :
  calls (RootAgentRouter.route env st) = []
  \/ calls (RootAgentRouter.route env st)
     = [Classify (RootAgentRouter.make_routing_input st)].
Proof.
  unfold RootAgentRouter.route.
  destruct (_ && _); [left; reflexivity|]. right.
  unfold invoke_routing_chain, bind, ret, calls.
  destruct (routing_chain env _); reflexivity.
Qed.

Lemma faq_fallback_node_calls_shape env st :
  calls (faq_fallback_node env st) = []
  \/ exists req, calls (faq_fallback_node env st) = [Generate req].
Proof.
  unfold faq_fallback_node. rewrite calls_bind, faq_generate_response_tiers.
  destruct (FAQFallbackAgent.handle_greeting _); [left; reflexivity|].
  destruct (FAQFallbackAgent.handle_thanks _); [left; reflexivity|].
  destruct (FAQFallbackAgent.search_faq _); [left; reflexivity|].
  right. eexists. unfold outcome, calls; cbn [fst snd].
  destruct (llm env _); reflexivity.
Qed.

(** X7. A turn makes at most one call to the routing chain, with the
    routing input built from the state that already holds the user's
    message, followed by at most one generation call; this holds whether
    the turn returns or raises. *)
Theorem turn_call_budget env st :
  exists cs gs,
    calls (process_message env st) = cs ++ gs
    /\ (cs = []
        \/ cs = [Classify (RootAgentRouter.make_routing_input
                             (add_user_message env st))])
    /\ (gs = [] \/ exists req, gs = [Generate req]).
Proof.
  unfold process_message. set (st0 := add_user_message env st).
  assert (Hg : exists cs gs,
             calls (graph_invoke env st0) = cs ++ gs
             /\ (cs = []
                 \/ cs = [Classify (RootAgentRouter.make_routing_input st0)])
             /\ (gs = [] \/ exists req, gs = [Generate req])).
  { exists (calls (RootAgentRouter.route env st0)).
    destruct (outcome (RootAgentRouter.route env st0)) as [n|e] eqn:Hr.
    - destruct (graph_invoke_dispatch env st0 n Hr)
        as [(h & -> & Hgi)|[-> Hgi]]; rewrite Hgi, calls_bind;
        cbn [calls fst outcome snd]; eexists;
        (split; [reflexivity|]); (split; [apply route_calls_shape|]).
      + apply node_of_calls.
      + apply faq_fallback_node_calls_shape.
    - exists []. split; [|split; [apply route_calls_shape | left; reflexivity]].
      unfold graph_invoke, router_node. rewrite !calls_bind, outcome_bind, Hr.
      rewrite !app_nil_r. reflexivity. }
  destruct Hg as (cs & gs & Hc & Hcs & Hgs).
  exists cs, gs. split; [|split; assumption].
  rewrite calls_bind, Hc.
  destruct (outcome (graph_invoke env st0)); cbn [calls ret fst];
    apply app_nil_r.
Qed.

(** ** What the routing chain is shown *)

Lemma append_assoc (a b c : string) : (a +:+ b) +:+ c = a +:+ b +:+ c.
Proof.
  induction a as [|x a IH]; [reflexivity|].
  change (String x ((a +:+ b) +:+ c) = String x (a +:+ b +:+ c)).
  f_equal. exact IH.
Qed.

Lemma join_last sep xs x :
  exists pre, Py.join sep (xs ++ [x]) = pre +:+ x.
Proof.
  induction xs as [|y ys [pre IH]].
  - exists EmptyString. reflexivity.
  - exists (y +:+ sep +:+ pre). unfold Py.join in *.
    change ((y :: ys) ++ [x]) with (y :: (ys ++ [x])).
    destruct (ys ++ [x]) as [|z zs] eqn:Hz.
    + destruct ys; discriminate Hz.
    + cbn [String.concat]. cbn [String.concat] in IH. rewrite IH.
      rewrite !append_assoc. reflexivity.
Qed.

(** X8. The routing chain is always shown the current utterance twice:
    as [user_query], and as the last line, "user: <utterance>", of the
    history text, because the user's message is appended before routing.
    The history text is built from at most five messages and is never the
    "No previous conversation" placeholder during a turn. *)
Theorem routing_input_ends_with_utterance env st :
  let inp := RootAgentRouter.make_routing_input (add_user_message env st) in
  ri_user_query inp = user_query st
  /\ ri_user_role inp = user_role st
  /\ ri_current_agent_awaiting_parameters inp
     = current_agent_awaiting_parameters st
  /\ (exists pre,
        ri_conversation_history inp = pre +:+ "user: " +:+ user_query st)
  /\ ri_conversation_history inp <> "No previous conversation"
  /\ length (RootAgentRouter.last5
               (conversation_history (add_user_message env st)))
     = Nat.min 5 (S (length (conversation_history st))).
Proof.
  intros inp. subst inp.
  assert (Hfmt : exists pre,
             RootAgentRouter.format_history (add_user_message env st)
             = pre +:+ "user: " +:+ user_query st).
  { unfold RootAgentRouter.format_history, RootAgentRouter.last5.
    cbn [add_user_message conversation_history set_conversation_history].
    rewrite drop_app_le by (rewrite length_app; cbn [length]; lia).
    rewrite map_app. cbn [map role content].
    apply join_last. }
  destruct Hfmt as [pre Hfmt].
  assert (Hne : Py.is_empty
                  (RootAgentRouter.format_history (add_user_message env st))
                = false).
  { rewrite Hfmt. destruct pre; reflexivity. }
  unfold RootAgentRouter.make_routing_input. cbn [ri_user_query ri_user_role
    ri_current_agent_awaiting_parameters ri_conversation_history].
  rewrite Hne. repeat split; try reflexivity.
  - exists pre. exact Hfmt.
  - rewrite Hfmt. intros Heq.
    assert (Hc : Py.contains "user: " "No previous conversation" = true).
    { rewrite <- Heq. apply contains_app. }
    vm_compute in Hc. discriminate Hc.
  - unfold RootAgentRouter.last5.
    cbn [add_user_message conversation_history set_conversation_history].
    rewrite length_drop, length_app. cbn [length]. lia.
Qed.

(** ** Extraction writes its own slots, and the same ones each time *)

(** X9. Extraction writes only its handler's own slots: the assignment
    handler only [assignment_title] (never [assignment_id], although the
    registry lists it), the learning-path handler only [topic] and
    [skill_level], the question handler only [topic], [difficulty] and
    [question_count]; every other slot keeps its value or its absence. *)
Theorem extract_writes_own_slots h st k :
  ~ In k (written_slots h) ->
  sub_agent_scratchpad (extract_parameters_of h st) !! k
  = sub_agent_scratchpad st !! k.
Proof.
  intros Hk. destruct (extract_overwrites h st) as (w & Hw & HF).
  specialize (HF (sub_agent_scratchpad st) k).
  rewrite set_scratchpad_same in HF. rewrite HF, (Hw k Hk). reflexivity.
Qed.

Lemma extract_writes_own_slots_witness :
  sub_agent_scratchpad
    (extract_parameters_of Assignment
       (session "Consultant" "my assignment 42 please" None ∅))
  !! "assignment_id"
  = (∅ : gmap string value) !! "assignment_id".
Proof.
  apply (extract_writes_own_slots Assignment
           (session "Consultant" "my assignment 42 please" None ∅)
           "assignment_id").
  cbn. intros [H|[]]. discriminate H.
Defined.

(** X10. Extraction is idempotent: extracting the same utterance a second
    time leaves the state exactly as the first extraction left it. *)
Theorem extract_idempotent h st :
  extract_parameters_of h (extract_parameters_of h st)
  = extract_parameters_of h st.
Proof.
  pose proof (extract_overwrites h st) as How.
  set (F := fun m =>
              sub_agent_scratchpad
                (extract_parameters_of h (set_scratchpad m st))) in How.
  assert (H1 : extract_parameters_of h st
               = set_scratchpad (F (sub_agent_scratchpad st)) st).
  { unfold F. rewrite set_scratchpad_same. apply extract_only_scratchpad. }
  rewrite H1 at 1. rewrite extract_only_scratchpad.
  change (sub_agent_scratchpad
            (extract_parameters_of h
               (set_scratchpad (F (sub_agent_scratchpad st)) st)))
    with (F (F (sub_agent_scratchpad st))).
  rewrite (ow_idempotent _ F _ How). rewrite H1. reflexivity.
Qed.

(** ** The assignment handler *)

Lemma scan_words_no_keyword rest (m : gmap string value) :
  (forall x, In x (removelast rest) ->
             Py.mem (Py.lower x) ["assignment"; "task"; "homework"] = false) ->
  AssignmentReviewAgent.scan_words rest m = m.
Proof.
  revert m. induction rest as [|x rest IH]; intros m Hno; [reflexivity|].
  cbn [AssignmentReviewAgent.scan_words].
  destruct rest as [|y rest].
  - rewrite andb_false_r. reflexivity.
  - rewrite (Hno x) by (left; reflexivity). cbn [andb].
    apply IH. intros z Hz. apply Hno. right. exact Hz.
Qed.

Lemma scan_words_last_keyword pre w rest (m : gmap string value) :
  Py.mem (Py.lower w) ["assignment"; "task"; "homework"] = true ->
  rest <> [] ->
  (forall x, In x (removelast rest) ->
             Py.mem (Py.lower x) ["assignment"; "task"; "homework"] = false) ->
  AssignmentReviewAgent.scan_words (pre ++ w :: rest) m
  = <["assignment_title" := VStr (Py.join " " (take 2 rest))]> m.
Proof.
  intros Hw Hrest Hno. revert m. induction pre as [|p pre IH]; intros m.
  - cbn [app AssignmentReviewAgent.scan_words]. rewrite Hw.
    destruct rest as [|y rest]; [congruence|]. cbn [Py.nonempty andb].
    apply scan_words_no_keyword. exact Hno.
  - cbn [app AssignmentReviewAgent.scan_words]. rewrite IH.
    destruct (_ && _); [apply insert_insert_eq | reflexivity].
Qed.

(** X11. When the utterance holds "assignment" (and not both "python" and
    "basic"), the assignment handler takes as title the one or two words
    that follow the last keyword (assignment, task, homework; any case)
    that is not the final word: later keywords win over earlier ones, and
    a keyword at the very end writes nothing. *)
Theorem assignment_title_follows_last_keyword st pre w rest :
  Py.contains "python" (Py.lower (user_query st))
  && Py.contains "basic" (Py.lower (user_query st)) = false ->
  Py.contains "assignment" (Py.lower (user_query st)) = true ->
  Py.split (user_query st) = pre ++ w :: rest ->
  Py.mem (Py.lower w) ["assignment"; "task"; "homework"] = true ->
  rest <> [] ->
  (forall x, In x (removelast rest) ->
             Py.mem (Py.lower x) ["assignment"; "task"; "homework"] = false) ->
  sub_agent_scratchpad (AssignmentReviewAgent.extract_parameters st)
  = <["assignment_title" := VStr (Py.join " " (take 2 rest))]>
      (sub_agent_scratchpad st).
Proof.
  intros Hpb Ha Hsplit Hw Hrest Hno.
  unfold AssignmentReviewAgent.extract_parameters.
  cbn [sub_agent_scratchpad set_scratchpad]. rewrite Hpb, Ha, Hsplit.
  apply scan_words_last_keyword; assumption.
Qed.

Lemma assignment_title_follows_last_keyword_witness :
  sub_agent_scratchpad
    (AssignmentReviewAgent.extract_parameters
       (session "Consultant"
          "Not the homework task, show my Assignment Data Structures results"
          None ∅))
  = <["assignment_title" := VStr "Data Structures"]> ∅.
Proof.
  apply (assignment_title_follows_last_keyword
           (session "Consultant"
              "Not the homework task, show my Assignment Data Structures results"
              None ∅)
           ["Not"; "the"; "homework"; "task,"; "show"; "my"] "Assignment"
           ["Data"; "Structures"; "results"]);
    try reflexivity.
  - discriminate.
  - cbn [removelast In]. intros x [<-|[<-|[]]]; reflexivity.
Defined.

(** X12. An utterance that holds both "python" and "basic" (any case)
    makes the assignment node report on "Python Basics", whatever title
    the scratchpad held before: the node makes exactly one generation
    call, fed with the row of the mock table (grade 85%, status Completed,
    due 2025-11-15), and the turn ends with nothing awaiting and an empty
    scratchpad, or raises what the generation call raised. *)
Theorem python_basics_report env st :
  Py.contains "python" (Py.lower (user_query st)) = true ->
  Py.contains "basic" (Py.lower (user_query st)) = true ->
  let request :=
    AssignmentPrompt "Python Basics" "85%" "Completed"
      "Good understanding of core concepts, but consider reviewing list comprehensions for efficiency."
      "2025-11-15" (user_query st) in
  calls (assignment_review_node env st) = [Generate request]
  /\ outcome (assignment_review_node env st)
     = match llm env request with
       | Ok text =>
           Ok (set_scratchpad ∅
                 (set_awaiting None (set_system_response text st)))
       | Raise e => Raise e
       end.
Proof.
  intros Hp Hb request.
  unfold assignment_review_node, AssignmentReviewAgent.extract_parameters.
  rewrite Hp, Hb. cbn [andb].
  unfold AssignmentReviewAgent.validate_parameters.
  cbn [sub_agent_scratchpad set_scratchpad].
  rewrite lookup_insert_eq. cbn [truthy_get truthy Py.is_empty negb].
  rewrite orb_true_r. cbn [negb complete].
  unfold AssignmentReviewAgent.generate_response.
  cbn [sub_agent_scratchpad set_scratchpad user_query user_id].
  rewrite lookup_insert_eq.
  change (invoke_llm env _) with ([Generate request], llm env request).
  rewrite calls_bind, outcome_bind. unfold calls, outcome. cbn [fst snd].
  destruct (llm env request); split; reflexivity.
Qed.

Lemma python_basics_report_witness :
  calls (assignment_review_node (env_answering "assignment_review_agent")
           (session "Consultant" "The Python BASICS one"
              (Some "assignment_review_agent")
              {[ "assignment_title" := VStr "Data Structures" ]}))
  = [Generate
       (AssignmentPrompt "Python Basics" "85%" "Completed"
          "Good understanding of core concepts, but consider reviewing list comprehensions for efficiency."
          "2025-11-15" "The Python BASICS one")].
Proof.
  refine (proj1 (python_basics_report
                   (env_answering "assignment_review_agent")
                   (session "Consultant" "The Python BASICS one"
                      (Some "assignment_review_agent")
                      {[ "assignment_title" := VStr "Data Structures" ]})
                   _ _)); vm_compute; reflexivity.
Defined.

(** ** The question-generation handler *)

Lemma int_of_digits_nonneg d : 0 <= Py.int_of_digits d.
Proof.
  unfold Py.int_of_digits.
  assert (H : forall l acc,
             0 <= acc ->
             0 <= fold_left
                    (fun acc c => 10 * acc + Z.of_nat (Py.code c - 48)) l acc).
  { induction l as [|c l IH]; intros acc Hacc; [exact Hacc|].
    cbn [fold_left]. apply IH. lia. }
  apply H. lia.
Qed.

(** The scratchpad that validation leaves, by the truth of the count. *)
Lemma question_count_after_validate st :
  (truthy_get (sub_agent_scratchpad st !! "question_count") = true ->
   sub_agent_scratchpad
     (snd (QuestionGenerationAgent.validate_parameters st))
   = sub_agent_scratchpad st)
  /\ (truthy_get (sub_agent_scratchpad st !! "question_count") = false ->
      sub_agent_scratchpad
        (snd (QuestionGenerationAgent.validate_parameters st))
      = <["question_count" := VInt 5]> (sub_agent_scratchpad st)).
Proof.
  unfold QuestionGenerationAgent.validate_parameters.
  destruct (truthy_get (sub_agent_scratchpad st !! "question_count"));
    cbn [negb]; destruct (Py.nonempty _);
    split; intros H; try discriminate H; reflexivity.
Qed.

Lemma question_extract_topic_other topics q (m : gmap string value) k :
  k <> "topic" ->
  QuestionGenerationAgent.extract_topic topics q m !! k = m !! k.
Proof.
  intros Hk. induction topics as [|t rest IH]; [reflexivity|].
  cbn [QuestionGenerationAgent.extract_topic].
  destruct (Py.contains t q); [|exact IH].
  apply lookup_insert_ne. congruence.
Qed.

(** X13. The count an utterance asks for.  The first run of digits is read
    in base ten, so it is never negative.  When [int] accepts it (at most
    4300 digits), extraction returns and the count the question handler
    has after validation is that number, except that a requested zero is
    replaced by the default 5.  When [int] refuses it, extraction raises
    [ValueError]: the count slot is left as it was, and for an Admin the
    node raises that error without any call. *)
Theorem requested_count_after_validation st d :
  Py.first_number (Py.lower (user_query st)) = Some d ->
  0 <= Py.int_of_digits d
  /\ (Py.int_raises d = false ->
      QuestionGenerationAgent.extract_parameters_raises st = None
      /\ sub_agent_scratchpad
           (snd (QuestionGenerationAgent.validate_parameters
                   (QuestionGenerationAgent.extract_parameters st)))
         !! "question_count"
         = Some (VInt (if Py.int_of_digits d =? 0 then 5
                       else Py.int_of_digits d)))
  /\ (Py.int_raises d = true ->
      QuestionGenerationAgent.extract_parameters_raises st
      = Some (Py.int_error d)
      /\ sub_agent_scratchpad (QuestionGenerationAgent.extract_parameters st)
         !! "question_count"
         = sub_agent_scratchpad st !! "question_count"
      /\ (QuestionGenerationAgent.check_permissions st = true ->
          forall env,
            question_generation_node env st = ([], Raise (Py.int_error d)))).
Proof.
  intros Hd. split; [apply int_of_digits_nonneg|]. split; intros Hl.
  - destruct (question_count_after_validate
                (QuestionGenerationAgent.extract_parameters st)) as [Hq Hs].
    unfold QuestionGenerationAgent.extract_parameters,
      QuestionGenerationAgent.extract_parameters_raises,
      QuestionGenerationAgent.extract_parameters_run in Hq, Hs |- *.
    rewrite Hd, Hl in Hq, Hs |- *.
    cbn [fst snd sub_agent_scratchpad set_scratchpad] in Hq, Hs |- *.
    split; [reflexivity|].
    rewrite lookup_insert_eq in Hq, Hs.
    cbn [truthy_get truthy] in Hq, Hs.
    destruct (Py.int_of_digits d =? 0); cbn [negb] in Hq, Hs.
    + rewrite Hs by reflexivity. apply lookup_insert_eq.
    + rewrite Hq by reflexivity. apply lookup_insert_eq.
  - assert (Hraise : QuestionGenerationAgent.extract_parameters_raises st
                     = Some (Py.int_error d)).
    { unfold QuestionGenerationAgent.extract_parameters_raises,
        QuestionGenerationAgent.extract_parameters_run.
      rewrite Hd, Hl. reflexivity. }
    split; [exact Hraise|]. split.
    + unfold QuestionGenerationAgent.extract_parameters,
        QuestionGenerationAgent.extract_parameters_run.
      rewrite Hd, Hl. cbn [fst sub_agent_scratchpad set_scratchpad].
      repeat (match goal with
              | |- context [if ?b then _ else _] => destruct b
              end;
              [rewrite lookup_insert_ne by discriminate;
               apply question_extract_topic_other; discriminate|]).
      apply question_extract_topic_other. discriminate.
    + intros Hperm env.
      apply (node_of_extract_raises QuestionGeneration env st
               (Py.int_error d) (fun _ => Hperm) Hraise).
Qed.

Lemma requested_count_after_validation_witness :
  sub_agent_scratchpad
    (snd (QuestionGenerationAgent.validate_parameters
            (QuestionGenerationAgent.extract_parameters
               (session "Admin" "Generate 0 hard python questions" None ∅))))
  !! "question_count"
  = Some (VInt 5)
  /\ question_generation_node (env_answering "question_generation_agent")
       (session "Admin"
          ("generate " +:+ Py.repeat_char "9" 4301 +:+ " python questions")
          None ∅)
     = ([], Raise (Py.int_error (Py.repeat_char "9" 4301))).
Proof.
  split.
  - refine (proj2 (proj1 (proj2 (requested_count_after_validation
                     (session "Admin" "Generate 0 hard python questions"
                        None ∅)
                     "0" _)) _)); vm_compute; reflexivity.
  - refine (proj2 (proj2 (proj2 (proj2 (requested_count_after_validation
                     (session "Admin"
                        ("generate " +:+ Py.repeat_char "9" 4301
                         +:+ " python questions") None ∅)
                     (Py.repeat_char "9" 4301) _)) _)) _ _);
      vm_compute; reflexivity.
Defined.

(** ** The fallback handler's table *)

(** X14. The FAQ table matches by the words of its keys, taken in order:
    any utterance that holds "how", "to", "submit" or "assignment"
    anywhere, even inside a longer word, gets the answer of the first
    entry, so the later entries are reached only by utterances that hold
    none of these four. *)
Theorem faq_first_entry_shadows q w :
  In w ["how"; "to"; "submit"; "assignment"] ->
  Py.contains w (Py.lower q) = true ->
  FAQFallbackAgent.search_faq q = snd <$> head FAQFallbackAgent.faq_db.
Proof.
  intros Hw Hc. unfold FAQFallbackAgent.search_faq, FAQFallbackAgent.faq_db.
  cbn [FAQFallbackAgent.search_db head fmap option_fmap option_map snd].
  assert (Hany : Py.any_in (Py.split "how to submit assignment") (Py.lower q)
                 = true).
  { change (Py.split "how to submit assignment")
      with ["how"; "to"; "submit"; "assignment"].
    unfold Py.any_in. apply existsb_exists. exists w. split; assumption. }
  rewrite Hany. reflexivity.
Qed.

Lemma faq_first_entry_shadows_witness :
  FAQFallbackAgent.search_faq "I want to check my grades"
  = snd <$> head FAQFallbackAgent.faq_db.
Proof.
  apply (faq_first_entry_shadows "I want to check my grades" "to").
  - cbn. tauto.
  - vm_compute. reflexivity.
Defined.

(** ** The learning-path handler *)

Lemma learning_topic_stays_truthy topics q (m : gmap string value) :
  Forall (fun t => Py.is_empty (Py.title t) = false) topics ->
  truthy_get (m !! "topic") = true ->
  truthy_get (LearningPathAgent.extract_topic topics q m !! "topic") = true.
Proof.
  intros Hall Hm. induction Hall as [|t rest Ht _ IH]; [exact Hm|].
  cbn [LearningPathAgent.extract_topic].
  destruct (Py.contains t q); [|exact IH].
  destruct (String.eqb t "nlp"); rewrite lookup_insert_eq;
    cbn [truthy_get truthy]; [reflexivity|]. rewrite Ht. reflexivity.
Qed.

Lemma learning_topics_titles :
  Forall (fun t => Py.is_empty (Py.title t) = false) LearningPathAgent.topics.
Proof. repeat constructor. Qed.

(** X15. Once a topic is in the scratchpad, any utterance that names a
    skill level ("beginner", "new to", "starting", "intermediate", "some
    experience", "advanced" or "expert", in any case) completes the
    learning-path request: the node makes exactly one generation call and
    ends with nothing awaiting and an empty scratchpad, or raises what the
    generation call raised. *)
Theorem skill_level_completes_learning_request env st :
  truthy_get (sub_agent_scratchpad st !! "topic") = true ->
  Py.any_in ["beginner"; "new to"; "starting"; "intermediate";
             "some experience"; "advanced"; "expert"]
    (Py.lower (user_query st)) = true ->
  (exists req, calls (learning_path_node env st) = [Generate req])
  /\ match outcome (learning_path_node env st) with
     | Ok st' =>
         current_agent_awaiting_parameters st' = None
         /\ sub_agent_scratchpad st' = ∅
     | Raise e => exists req, llm env req = Raise e
     end.
Proof.
  intros Htopic Hlevel.
  pose proof (learning_topic_stays_truthy LearningPathAgent.topics
                (Py.lower (user_query st)) _ learning_topics_titles Htopic)
    as Ht.
  assert (Hcomplete :
    complete (LearningPathAgent.validate_parameters
                (LearningPathAgent.extract_parameters st)) = true).
  { unfold LearningPathAgent.validate_parameters,
      LearningPathAgent.extract_parameters.
    cbn [sub_agent_scratchpad set_scratchpad].
    set (m := LearningPathAgent.extract_topic _ _ _) in *.
    unfold Py.any_in in Hlevel. cbn [existsb] in Hlevel.
    rewrite orb_false_r in Hlevel.
    destruct (Py.contains "beginner" _); cbn [orb] in Hlevel |- *;
      [|destruct (Py.contains "new to" _); cbn [orb] in Hlevel |- *;
        [|destruct (Py.contains "starting" _); cbn [orb] in Hlevel |- *;
          [|destruct (Py.contains "intermediate" _); cbn [orb] in Hlevel |- *;
            [|destruct (Py.contains "some experience" _);
              cbn [orb] in Hlevel |- *;
              [|destruct (Py.contains "advanced" _); cbn [orb] in Hlevel |- *;
                [|rewrite Hlevel]]]]]];
      rewrite lookup_insert_eq, lookup_insert_ne, Ht by discriminate;
      reflexivity. }
  pose proof (node_of_unfold LearningPath env st
                ltac:(discriminate) eq_refl) as Hn.
  cbn [node_of extract_parameters_of validate_parameters_of
       generate_response_of handler_id fst snd] in Hn.
  rewrite Hn. cbv zeta. rewrite Hcomplete. cbn [negb].
  rewrite calls_bind, outcome_bind.
  destruct (generate_response_calls LearningPath env
              (LearningPathAgent.extract_parameters st)) as (req & Hc & Ho).
  cbn [generate_response_of] in Hc, Ho. rewrite Hc. split.
  - exists req. destruct (outcome _); reflexivity.
  - destruct (outcome (LearningPathAgent.generate_response env _)).
    + unfold outcome, ret. cbn [snd]. split; reflexivity.
    + exists req. exact Ho.
Qed.

Lemma skill_level_completes_learning_request_witness :
  exists req,
    calls (learning_path_node (env_answering "CONTINUE_CURRENT")
             (session "Consultant" "I am new to this"
                (Some "learning_path_agent") {[ "topic" := VStr "Python" ]}))
    = [Generate req].
Proof.
  refine (proj1 (skill_level_completes_learning_request
                   (env_answering "CONTINUE_CURRENT")
                   (session "Consultant" "I am new to this"
                      (Some "learning_path_agent")
                      {[ "topic" := VStr "Python" ]}) _ _));
    vm_compute; reflexivity.
Defined.

(** ** The socket handler *)

(** X16. For a frame with a non-blank query whose turn returns, the socket
    handler rebinds its session to the turn's result and sends a response
    that carries the turn's answer, the name of one of the four handlers
    (never the "unknown" default), a flag that is set exactly when a
    handler is left awaiting (and, when it is not set, the scratchpad is
    empty), and as error only what the session held before the turn. *)
Theorem handle_message_reports_turn env st q st' :
  Py.is_empty (Py.strip q) = false ->
  outcome (process_message env (set_user_query (Py.strip q) st)) = Ok st' ->
  exists agent flag,
    In agent node_names
    /\ current_agent st' = Some agent
    /\ (flag = true <-> exists h, current_agent_awaiting_parameters st' = Some h)
    /\ (flag = false -> sub_agent_scratchpad st' = ∅)
    /\ snd (handle_message env st (JsonObject (Some q)))
       = (Some st',
          WsResponse (system_response st') agent flag
            (now env (length (conversation_history st')))
            (if truthy_str (error st) then error st else None)).
Proof.
  intros Hq Hok.
  destruct (turn_shape env _ st' Hok)
    as (n & _ & Hin & Hca & Hfix & _ & Hcol).
  assert (Herr : error st' = error st).
  { unfold fixed_fields in Hfix. injection Hfix as _ _ _ He _ _. exact He. }
  exists n,
    (match current_agent_awaiting_parameters st' with
     | Some _ => true | None => false end).
  split; [exact Hin|]. split; [exact Hca|]. split; [|split].
  - destruct (current_agent_awaiting_parameters st') as [h|]; split.
    + intros _. exists h. reflexivity.
    + reflexivity.
    + discriminate.
    + intros [h Hh]. discriminate Hh.
  - destruct Hcol as [[_ Hs]|(Ha & _)]; [intros _; exact Hs|].
    rewrite Ha. discriminate.
  - unfold handle_message.
    change (default EmptyString (Some q)) with q. rewrite Hq.
    destruct (process_message env _) as [l r].
    unfold outcome in Hok. cbn [snd] in Hok. subst r. cbn [snd].
    rewrite Hca, Herr. reflexivity.
Qed.

Lemma handle_message_reports_turn_witness :
  exists st' agent flag,
    current_agent st' = Some agent
    /\ snd (handle_message (env_answering "assignment_review_agent")
              (initial_state "websocket_user" "Consultant")
              (JsonObject (Some "  How did I do on my Python assignment? ")))
       = (Some st',
          WsResponse (system_response st') agent flag
            "2025-11-21T10:00:00" None).
Proof.
  destruct (outcome (process_message (env_answering "assignment_review_agent")
                       (set_user_query
                          (Py.strip "  How did I do on my Python assignment? ")
                          (initial_state "websocket_user" "Consultant"))))
    as [st'|e] eqn:Ho; [|vm_compute in Ho; discriminate Ho].
  destruct (handle_message_reports_turn
              (env_answering "assignment_review_agent")
              (initial_state "websocket_user" "Consultant")
              "  How did I do on my Python assignment? " st' eq_refl Ho)
    as (agent & flag & _ & Hca & _ & _ & Hm).
  exists st', agent, flag. split; [exact Hca | exact Hm].
Defined.

(** ** The interactive loop *)





(** ** Topic priority *)

Lemma learning_extract_topic_first pre t post q (m : gmap string value) :
  (forall x, In x pre -> Py.contains x q = false) ->
  Py.contains t q = true ->
  LearningPathAgent.extract_topic (pre ++ t :: post) q m !! "topic"
  = Some (VStr (if String.eqb t "nlp" then "Natural Language Processing"
                else Py.title t)).
Proof.
  intros Hpre Ht. induction pre as [|p pre IH].
  - cbn [app LearningPathAgent.extract_topic]. rewrite Ht.
    destruct (String.eqb t "nlp"); apply lookup_insert_eq.
  - cbn [app LearningPathAgent.extract_topic].
    rewrite (Hpre p) by (left; reflexivity).
    apply IH. intros x Hx. apply Hpre. right. exact Hx.
Qed.

(** X18. The learning-path handler takes the topic by the order of its own
    topic list, not by the order of the words in the utterance: the topic
    stored is the first entry of the list that occurs in the lower-cased
    utterance, title-cased, with "nlp" stored under its full name
    "Natural Language Processing"; a skill level found in the same
    utterance does not disturb it. *)
Theorem learning_topic_follows_list_order st pre t post :
  LearningPathAgent.topics = pre ++ t :: post ->
  (forall x, In x pre -> Py.contains x (Py.lower (user_query st)) = false) ->
  Py.contains t (Py.lower (user_query st)) = true ->
  sub_agent_scratchpad (LearningPathAgent.extract_parameters st) !! "topic"
  = Some (VStr (if String.eqb t "nlp" then "Natural Language Processing"
                else Py.title t)).
Proof.
  intros Hlist Hpre Ht. unfold LearningPathAgent.extract_parameters.
  cbn [sub_agent_scratchpad set_scratchpad]. rewrite Hlist.
  pose proof (learning_extract_topic_first pre t post
                (Py.lower (user_query st)) (sub_agent_scratchpad st)
                Hpre Ht) as Hfirst.
  repeat (match goal with
          | |- context [if ?b then _ else _] => destruct b
          end;
          [rewrite lookup_insert_ne by discriminate; exact Hfirst|]).
  exact Hfirst.
Qed.

Lemma learning_topic_follows_list_order_witness :
  sub_agent_scratchpad
    (LearningPathAgent.extract_parameters
       (session "Consultant" "NLP first, then some Python, I am a beginner"
          None ∅))
  !! "topic"
  = Some (VStr "Python").
Proof.
  apply (learning_topic_follows_list_order
           (session "Consultant"
              "NLP first, then some Python, I am a beginner" None ∅)
           ["machine learning"] "python"
           ["data science"; "nlp"; "natural language processing";
            "deep learning"; "web development"; "javascript"; "react";
            "sql"; "databases"]).
  - reflexivity.
  - intros x [<-|[]]. vm_compute. reflexivity.
  - vm_compute. reflexivity.
Defined.

(** ** A denied handler does not stay awaiting *)

(** X19. Permission is checked again on every turn: if the handler that is
    awaiting is not permitted for the session's role (the role changed, or
    the state was built that way), then after any turn that returns it is
    no longer awaiting, whatever the routing chain returned. *)
Theorem denied_handler_never_remains_awaiting env st st' h :
  RootAgentRouter.check_role_permission h (user_role st) = false ->
  outcome (process_message env st) = Ok st' ->
  current_agent_awaiting_parameters st' <> Some h.
Proof.
  intros Hden Hok Haw.
  destruct (turn_shape env st st' Hok) as (n & Hr & _ & _ & _ & _ & Hcol).
  destruct Hcol as [[Ha _]|(Ha & Hn & _)]; [congruence|].
  rewrite Ha in Haw. injection Haw as ->.
  apply route_answer_permitted in Hr as [Hr|Hr]; [contradiction|].
  cbn [add_user_message user_role set_conversation_history] in Hr.
  congruence.
Qed.

Lemma denied_handler_never_remains_awaiting_witness :
  exists st',
    outcome (process_message (env_answering "CONTINUE_CURRENT")
               (session "Consultant" "medium please"
                  (Some "question_generation_agent")
                  {[ "topic" := VStr "Python" ]})) = Ok st'
    /\ current_agent_awaiting_parameters st'
       <> Some "question_generation_agent".
Proof.
  destruct (outcome (process_message (env_answering "CONTINUE_CURRENT")
                       (session "Consultant" "medium please"
                          (Some "question_generation_agent")
                          {[ "topic" := VStr "Python" ]})))
    as [st'|e] eqn:Ho; [|vm_compute in Ho; discriminate Ho].
  exists st'. split; [reflexivity|].
  apply (denied_handler_never_remains_awaiting
           (env_answering "CONTINUE_CURRENT")
           (session "Consultant" "medium please"
              (Some "question_generation_agent")
              {[ "topic" := VStr "Python" ]})
           st' "question_generation_agent"); [vm_compute; reflexivity|].
  exact Ho.
Defined.
